(** * anonymize.py: hashing of the identifier columns of a participants table

    A shallow embedding of [convergent/analysis/data/anonymize.py] and the
    properties its specification states about it.

    The script is five statements long; everything else it does is done by
    the Python runtime and two libraries.  They are modelled as follows.

    - A Python [str] is a sequence of code points, [str_encode] is the strict
      UTF-8 codec behind [value.encode()].
    - [hashlib.sha256(data)] builds a hash object (chaining value, pending
      bytes, byte count) and [hexdigest()] finalises it.  The function of
      FIPS 180-4, written from the standard's text, is [SHA256]; the two
      are proved equal.
    - A pandas [DataFrame] is an ordered list of named columns over a
      [RangeIndex].  A CSV file is modelled by the table pandas reads from
      it or writes to it.  The text of a file is modelled for columns of
      integer literals and of plain words ([parse_csv], [render_csv]);
      the rest of the text codec of pandas (tokenising, quoting, floats,
      booleans, missing values) is outside the model, and so are the
      failures of reading and writing other than a missing or empty
      file.
    - The file system and the console are threaded through the script as an
      explicit [world]; Python exceptions are the [Raise] outcome. *)

From stdpp Require Import base option list gmap strings.
From Stdlib Require Import ZArith Lia String Ascii SpecFloat List.
From Stdlib.Strings Require Import Byte.
Import ListNotations.
Local Open Scope Z_scope.

(** ** Python values *)

(** A code point; a [str] holds values in [0, 0x10FFFF]. *)
Definition codepoint := Z.
Definition str := list codepoint.
Definition bytes := list byte.

(** The [str] denoted by an ASCII literal. *)
Definition py (lit : string) : str :=
  List.map (fun a => Z.of_N (N_of_ascii a)) (list_ascii_of_string lit).

(** The cells pandas produces for a CSV column: text, int64, float64
    (a missing cell is the float NaN) and bool. *)
Inductive pyval :=
| PStr (s : str)
| PInt (n : Z)
| PFloat (f : spec_float)
| PBool (b : bool).

Definition NaN : pyval := PFloat S754_nan.

Definition is_str (v : pyval) : bool :=
  match v with PStr _ => true | _ => false end.

Inductive exn :=
| FileNotFoundError (path : string)
| KeyError (key : str)
| EmptyDataError
| AttributeError
| UnicodeEncodeError.

Inductive result (A : Type) :=
| Ok (a : A)
| Raise (e : exn).
Arguments Ok {A} a.
Arguments Raise {A} e.

Definition rbind {A B} (r : result A) (k : A -> result B) : result B :=
  match r with Ok a => k a | Raise e => Raise e end.

(** ** str.encode(): strict UTF-8 *)

Definition byte_of_Z (z : Z) : byte :=
  default x00 (Byte.of_N (Z.to_N (z mod 256))).

Definition Z_of_byte (b : byte) : Z := Z.of_N (Byte.to_N b).

Definition is_surrogate (c : codepoint) : bool :=
  (0xD800 <=? c) && (c <=? 0xDFFF).

(** A Unicode scalar value: a code point that is not a surrogate. *)
Definition is_scalar (c : codepoint) : bool :=
  (0 <=? c) && (c <=? 0x10FFFF) && negb (is_surrogate c).

Definition continuation (c : Z) (shift : Z) : byte :=
  byte_of_Z (Z.lor 0x80 (Z.land (Z.shiftr c shift) 0x3F)).

(** One code point.  Surrogates are refused ("surrogates not allowed");
    values outside [0, 0x10FFFF] are not code points at all. *)
Definition encode_codepoint (c : codepoint) : option bytes :=
  if c <? 0 then None
  else if c <? 0x80 then Some [byte_of_Z c]
  else if c <? 0x800 then
    Some [byte_of_Z (Z.lor 0xC0 (Z.shiftr c 6)); continuation c 0]
  else if c <? 0x10000 then
    if is_surrogate c then None
    else Some [byte_of_Z (Z.lor 0xE0 (Z.shiftr c 12));
               continuation c 6; continuation c 0]
  else if c <=? 0x10FFFF then
    Some [byte_of_Z (Z.lor 0xF0 (Z.shiftr c 18));
          continuation c 12; continuation c 6; continuation c 0]
  else None.

Fixpoint str_encode (s : str) : option bytes :=
  match s with
  | [] => Some []
  | c :: s' =>
      match encode_codepoint c, str_encode s' with
      | Some b, Some bs => Some (b ++ bs)
      | _, _ => None
      end
  end.

(** ** SHA-256 on 32-bit words *)

Definition add32 (x y : Z) : Z := (x + y) mod 2 ^ 32.
Definition rotr (n x : Z) : Z :=
  Z.lor (Z.shiftr x n) (Z.shiftl x (32 - n) mod 2 ^ 32).
Definition not32 (x : Z) : Z := Z.lxor x 0xFFFFFFFF.

Definition Ch (x y z : Z) : Z := Z.lxor (Z.land x y) (Z.land (not32 x) z).
Definition Maj (x y z : Z) : Z :=
  Z.lxor (Z.lxor (Z.land x y) (Z.land x z)) (Z.land y z).
Definition bsig0 (x : Z) : Z := Z.lxor (Z.lxor (rotr 2 x) (rotr 13 x)) (rotr 22 x).
Definition bsig1 (x : Z) : Z := Z.lxor (Z.lxor (rotr 6 x) (rotr 11 x)) (rotr 25 x).
Definition ssig0 (x : Z) : Z := Z.lxor (Z.lxor (rotr 7 x) (rotr 18 x)) (Z.shiftr x 3).
Definition ssig1 (x : Z) : Z := Z.lxor (Z.lxor (rotr 17 x) (rotr 19 x)) (Z.shiftr x 10).

Definition K256 : list Z :=
  [0x428A2F98; 0x71374491; 0xB5C0FBCF; 0xE9B5DBA5] ++
  [0x3956C25B; 0x59F111F1; 0x923F82A4; 0xAB1C5ED5] ++
  [0xD807AA98; 0x12835B01; 0x243185BE; 0x550C7DC3] ++
  [0x72BE5D74; 0x80DEB1FE; 0x9BDC06A7; 0xC19BF174] ++
  [0xE49B69C1; 0xEFBE4786; 0x0FC19DC6; 0x240CA1CC] ++
  [0x2DE92C6F; 0x4A7484AA; 0x5CB0A9DC; 0x76F988DA] ++
  [0x983E5152; 0xA831C66D; 0xB00327C8; 0xBF597FC7] ++
  [0xC6E00BF3; 0xD5A79147; 0x06CA6351; 0x14292967] ++
  [0x27B70A85; 0x2E1B2138; 0x4D2C6DFC; 0x53380D13] ++
  [0x650A7354; 0x766A0ABB; 0x81C2C92E; 0x92722C85] ++
  [0xA2BFE8A1; 0xA81A664B; 0xC24B8B70; 0xC76C51A3] ++
  [0xD192E819; 0xD6990624; 0xF40E3585; 0x106AA070] ++
  [0x19A4C116; 0x1E376C08; 0x2748774C; 0x34B0BCB5] ++
  [0x391C0CB3; 0x4ED8AA4A; 0x5B9CCA4F; 0x682E6FF3] ++
  [0x748F82EE; 0x78A5636F; 0x84C87814; 0x8CC70208] ++
  [0x90BEFFFA; 0xA4506CEB; 0xBEF9A3F7; 0xC67178F2].

(** The chaining value: eight 32-bit words. *)
Record chain := Chain {
  w0 : Z; w1 : Z; w2 : Z; w3 : Z; w4 : Z; w5 : Z; w6 : Z; w7 : Z }.

Definition IV : chain :=
  Chain 0x6A09E667 0xBB67AE85 0x3C6EF372 0xA54FF53A
        0x510E527F 0x9B05688C 0x1F83D9AB 0x5BE0CD19.

(** Big-endian words of a block. *)
Fixpoint be_words (bs : bytes) : list Z :=
  match bs with
  | a :: b :: c :: d :: rest =>
      (Z.lor (Z.shiftl (Z_of_byte a) 24)
         (Z.lor (Z.shiftl (Z_of_byte b) 16)
            (Z.lor (Z.shiftl (Z_of_byte c) 8) (Z_of_byte d)))) :: be_words rest
  | _ => []
  end.

(** The message schedule, most recent word first: with [W(t-1)] at the
    head, [W(t-2)], [W(t-7)], [W(t-15)] and [W(t-16)] sit at positions
    1, 6, 14 and 15. *)
Definition next_word (recent : list Z) : Z :=
  add32 (add32 (add32 (ssig1 (nth 1 recent 0)) (nth 6 recent 0))
                (ssig0 (nth 14 recent 0)))
        (nth 15 recent 0).

Fixpoint extend (n : nat) (recent : list Z) : list Z :=
  match n with
  | O => recent
  | S n' => extend n' (next_word recent :: recent)
  end.

Definition schedule (block : bytes) : list Z :=
  rev (extend 48 (rev (be_words block))).

Definition round (s : chain) (kw : Z * Z) : chain :=
  let t1 := add32 (add32 (add32 (add32 (w7 s) (bsig1 (w4 s)))
                                 (Ch (w4 s) (w5 s) (w6 s)))
                          (fst kw))
                  (snd kw) in
  let t2 := add32 (bsig0 (w0 s)) (Maj (w0 s) (w1 s) (w2 s)) in
  Chain (add32 t1 t2) (w0 s) (w1 s) (w2 s) (add32 (w3 s) t1) (w4 s) (w5 s) (w6 s).

Definition compress (h : chain) (block : bytes) : chain :=
  let s := fold_left round (combine K256 (schedule block)) h in
  Chain (add32 (w0 h) (w0 s)) (add32 (w1 h) (w1 s))
        (add32 (w2 h) (w2 s)) (add32 (w3 h) (w3 s))
        (add32 (w4 h) (w4 s)) (add32 (w5 h) (w5 s))
        (add32 (w6 h) (w6 s)) (add32 (w7 h) (w7 s)).

Definition be_bytes32 (w : Z) : bytes :=
  [byte_of_Z (Z.shiftr w 24); byte_of_Z (Z.shiftr w 16);
   byte_of_Z (Z.shiftr w 8); byte_of_Z w].

Definition chain_bytes (h : chain) : bytes :=
  be_bytes32 (w0 h) ++ be_bytes32 (w1 h) ++ be_bytes32 (w2 h) ++
  be_bytes32 (w3 h) ++ be_bytes32 (w4 h) ++ be_bytes32 (w5 h) ++
  be_bytes32 (w6 h) ++ be_bytes32 (w7 h).

(** The padding that follows a message of [len] bytes: the byte 0x80,
    zeros up to 56 modulo 64, and the bit length on eight bytes. *)
Definition be_bytes64 (n : Z) : bytes :=
  be_bytes32 (Z.shiftr n 32) ++ be_bytes32 n.

Definition padding (len : nat) : bytes :=
  x80 :: repeat x00 (Z.to_nat ((55 - Z.of_nat len) mod 64))
      ++ be_bytes64 (8 * Z.of_nat len).

(** *** FIPS 180-4, section 6.2: pad, parse into blocks, iterate *)

Definition block_at (m : bytes) (i : nat) : bytes :=
  firstn 64 (skipn (64 * i) m).

Definition blocks (m : bytes) : list bytes :=
  List.map (block_at m) (seq 0 (length m / 64)).

Definition SHA256 (msg : bytes) : bytes :=
  chain_bytes (fold_left compress (blocks (msg ++ padding (length msg))) IV).

(** *** hashlib: the hash object *)

Record sha256_obj := Sha256Obj {
  chaining : chain;      (* state after the blocks absorbed so far *)
  pending : bytes;       (* fewer than 64 bytes waiting for a full block *)
  total : nat            (* bytes fed to the object *)
}.

(** Absorb the first [n] blocks of [buf]. *)
Fixpoint absorb (n : nat) (h : chain) (buf : bytes) : chain :=
  match n with
  | O => h
  | S n' => absorb n' (compress h (firstn 64 buf)) (skipn 64 buf)
  end.

Definition sha256_new : sha256_obj := Sha256Obj IV [] 0.

Definition sha256_update (o : sha256_obj) (data : bytes) : sha256_obj :=
  let buf := pending o ++ data in
  let n := (length buf / 64)%nat in
  Sha256Obj (absorb n (chaining o) buf) (skipn (64 * n) buf)
            (total o + length data).

(** [hashlib.sha256(data)]: a new object fed with [data]. *)
Definition hashlib_sha256 (data : bytes) : sha256_obj :=
  sha256_update sha256_new data.

Definition digest (o : sha256_obj) : bytes :=
  let tail := pending o ++ padding (total o) in
  chain_bytes (absorb (length tail / 64) (chaining o) tail).

Definition hex_digit (d : Z) : codepoint :=
  if d <? 10 then 48 + d else 87 + d.

Definition hex_of_byte (b : byte) : str :=
  [hex_digit (Z_of_byte b / 16); hex_digit (Z_of_byte b mod 16)].

Definition hexlify (bs : bytes) : str := flat_map hex_of_byte bs.

Definition hexdigest (o : sha256_obj) : str := hexlify (digest o).

(** ** anonymize_value *)

(** [value.encode()]: only [str] has the method among the cell types. *)
Definition encode (value : pyval) : result bytes :=
  match value with
  | PStr s =>
      match str_encode s with
      | Some b => Ok b
      | None => Raise UnicodeEncodeError
      end
  | _ => Raise AttributeError
  end.

Definition anonymize_value (value : pyval) : result pyval :=
  rbind (encode value) (fun b => Ok (PStr (hexdigest (hashlib_sha256 b)))).


(** ** pandas: Series and DataFrame *)

Abbreviation Series := (list pyval).

(** A table: the named columns, in header order.  It is what a CSV file
    holds, and the data of a [DataFrame]. *)
Abbreviation table := (list (str * list pyval)).

Definition header (t : table) : list str := List.map fst t.

Definition nrows (t : table) : nat :=
  match t with
  | [] => O
  | c :: _ => length (snd c)
  end.

(** The first column called [key]. *)
Fixpoint column (t : table) (key : str) : option Series :=
  match t with
  | [] => None
  | (k, vs) :: t' => if decide (k = key) then Some vs else column t' key
  end.

(** Row [i]: the cells at position [i] of every column. *)
Fixpoint row (t : table) (i : nat) : option (list pyval) :=
  match t with
  | [] => Some []
  | c :: t' =>
      match snd c !! i, row t' i with
      | Some v, Some r => Some (v :: r)
      | _, _ => None
      end
  end.

Definition rows (t : table) : list (option (list pyval)) :=
  List.map (row t) (seq 0 (nrows t)).

(** [read_csv] gives the frame a [RangeIndex]; its column labels are
    unique (pandas renames repeated header names on load). *)
Record DataFrame := Frame {
  index : nat;          (* RangeIndex(index) *)
  data : table
}.

(** [df[key]] *)
Definition getitem (df : DataFrame) (key : str) : result Series :=
  match column (data df) key with
  | Some vs => Ok vs
  | None => Raise (KeyError key)
  end.

(** [series.apply(func)]: [func] on each value, first to last; the first
    exception ends the call. *)
Fixpoint Series_apply (func : pyval -> result pyval) (s : Series) : result Series :=
  match s with
  | [] => Ok []
  | v :: s' =>
      rbind (func v) (fun v' =>
      rbind (Series_apply func s') (fun r => Ok (v' :: r)))
  end.

Fixpoint set_column (t : table) (key : str) (vs : Series) : table :=
  match t with
  | [] => [(key, vs)]
  | (k, old) :: t' =>
      if decide (k = key) then (k, vs) :: t'
      else (k, old) :: set_column t' key vs
  end.

(** [df[key] = series]: an existing column keeps its place, a new one
    goes last. *)
Definition setitem (df : DataFrame) (key : str) (vs : Series) : DataFrame :=
  Frame (index df) (set_column (data df) key vs).

(** ** The file system and the console *)

Record world := World {
  files : gmap string table;
  console : list string
}.

Definition M (A : Type) : Type := world -> result A * world.

Definition bind {A B} (c : M A) (k : A -> M B) : M B :=
  fun w =>
    match c w with
    | (Ok a, w') => k a w'
    | (Raise e, w') => (Raise e, w')
    end.

Definition lift {A} (r : result A) : M A := fun w => (r, w).

Notation "'let*' x ':=' c 'in' k" := (bind c (fun x => k))
  (at level 10, x name, c at level 100, k at level 200, only parsing).

(** [pd.read_csv(path)].  The failures modelled are a missing file and a
    file without columns; text that cannot be decoded or parsed, and paths
    that cannot be opened, are outside the model. *)
Definition read_csv (path : string) : M DataFrame :=
  fun w =>
    match files w !! path with
    | None => (Raise (FileNotFoundError path), w)
    | Some [] => (Raise EmptyDataError, w)
    | Some t => (Ok (Frame (nrows t) t), w)
    end.

Definition index_column (n : nat) : str * Series :=
  ([], List.map (fun i => PInt (Z.of_nat i)) (seq 0 n)).

(** [df.to_csv(path, index=...)]: the header row is always written; the
    index is one more leading column when [index] is true.  Writing is
    taken to succeed: a path that cannot be written is outside the
    model. *)
Definition to_csv (df : DataFrame) (path : string) (index_flag : bool) : M unit :=
  fun w =>
    let t := if index_flag then index_column (index df) :: data df else data df in
    (Ok tt, World (<[path := t]> (files w)) (console w)).

Definition print (line : string) : M unit :=
  fun w => (Ok tt, World (files w) (console w ++ [line])).

(** ** The script *)

Definition input_path : string := "participants.csv".
Definition output_path : string := "anonymized_participants.csv".
Definition completion_message : string :=
  "Anonymization completed and saved to 'anonymized_file.csv'.".

Definition run : M unit :=
  let* df := read_csv input_path in
  (* df['assignment_id'] = df['assignment_id'].apply(anonymize_value)
     is commented out in the script *)
  let* s := lift (getitem df (py "workerid")) in
  let* s := lift (Series_apply anonymize_value s) in
  let df := setitem df (py "workerid") s in
  let* s := lift (getitem df (py "hitId")) in
  let* s := lift (Series_apply anonymize_value s) in
  let df := setitem df (py "hitId") s in
  let* _ := to_csv df output_path false in
  print completion_message.

(** The columns the script rewrites. *)
Definition is_identifier (key : str) : bool :=
  bool_decide (key = py "workerid") || bool_decide (key = py "hitId").

(** The scenario of the specification. *)
Definition scenario : table :=
  [ (py "workerid", [PStr (py "alice"); PStr (py "bob")]);
    (py "hitId", [PStr (py "HIT001"); PStr (py "HIT002")]);
    (py "score", [PInt 5; PInt 7]) ].

Definition scenario_world : world :=
  World {[ input_path := scenario ]} [].

(** What the scenario is expected to leave in the output file. *)
Definition scenario_output : table :=
  [ (py "workerid",
     [PStr (py "2bd806c97f0e00af1a1fc3328fa763a9269723c8db8fac4f93af71db186d6e90");
      PStr (py "81b637d8fcd2c6da6359e6963113a1170de795e4b725b84d1e0b4cfd9ec58ce9")]);
    (py "hitId",
     [PStr (py "dc2c6589e8d10b4c3b068741a804f869ccbd365e242831e9544e9e609bbed2dc");
      PStr (py "f49f24ccb74b3b3545c9adc47a5cb0cd459341fc426a5447d120c65e101bc52b")]);
    (py "score", [PInt 5; PInt 7]) ].

Definition scenario_result : world :=
  World (<[ output_path := scenario_output ]> {[ input_path := scenario ]})
        [completion_message].

(** A code point of a [str]. *)
Definition is_codepoint (c : Z) : Prop := 0 <= c <= 0x10FFFF.

(** ** Vocabulary of the properties *)

(** What an object holds after being fed the bytes [fed]. *)
Definition holds (o : sha256_obj) (fed : bytes) : Prop :=
  chaining o = absorb (length fed / 64) IV fed /\
  pending o = skipn (64 * (length fed / 64)) fed /\
  total o = length fed.

(** The lowercase hexadecimal alphabet, [0-9a-f]. *)
Definition is_lower_hex (c : codepoint) : bool :=
  (48 <=? c) && (c <=? 57) || (97 <=? c) && (c <=? 102).

(** The SHA-256 hexadecimal digest of a string: the function of FIPS 180-4
    on the UTF-8 bytes of the string, nothing added before or after them. *)
Definition sha256_hexdigest (s : str) : option str :=
  match str_encode s with
  | Some bs => Some (hexlify (SHA256 bs))
  | None => None
  end.

(** The two column rewrites of the script, on the loaded frame. *)
Definition rewrite_column (df : DataFrame) (key : str) : result DataFrame :=
  rbind (getitem df key) (fun s =>
  rbind (Series_apply anonymize_value s) (fun s' =>
  Ok (setitem df key s'))).

Definition rewritten (df : DataFrame) : result DataFrame :=
  rbind (rewrite_column df (py "workerid")) (fun df' =>
  rewrite_column df' (py "hitId")).

(** [vs'] holds the digests of the values of [vs], position by position. *)
Definition hashes (vs vs' : Series) : Prop :=
  Forall2 (fun v v' => anonymize_value v = Ok v') vs vs'.

(** A column after the rewrite of the column [key]. *)
Definition column_after (key : str) (c c' : str * Series) : Prop :=
  fst c' = fst c /\
  (snd c' = snd c \/ (fst c = key /\ hashes (snd c) (snd c'))).

(** A column after the script: kept as it is, or an identifier column
    with every value hashed. *)
Definition kept_or_hashed (c c' : str * Series) : Prop :=
  fst c' = fst c /\
  (snd c' = snd c \/ (is_identifier (fst c) = true /\ hashes (snd c) (snd c'))).

(** A cell after the script, given the name of its column. *)
Definition cell_after (kv : str * pyval) (v' : pyval) : Prop :=
  v' = snd kv \/
  (is_identifier (fst kv) = true /\ anonymize_value (snd kv) = Ok v').

(** The text between the first two apostrophes of a line. *)
Fixpoint until_quote (s : string) : option string :=
  match s with
  | EmptyString => None
  | String a s' =>
      if Ascii.eqb a "'" then Some EmptyString
      else option_map (String a) (until_quote s')
  end.

Fixpoint quoted (s : string) : option string :=
  match s with
  | EmptyString => None
  | String a s' => if Ascii.eqb a "'" then until_quote s' else quoted s'
  end.

(** A token: a string of 64 lowercase hexadecimal characters. *)
Definition is_token (v : pyval) : Prop :=
  exists d, v = PStr d /\ length d = 64%nat /\
            Forall (fun c => is_lower_hex c = true) d.

(** A cell [anonymize_value] accepts: a string without surrogates. *)
Definition hashable (v : pyval) : bool :=
  match v with
  | PStr s => forallb is_scalar s
  | _ => false
  end.

(** The first code point of a UTF-8 byte sequence and the bytes after it:
    the inverse of [encode_codepoint], by which encoding is shown to lose
    nothing. *)
Definition decode_first (bs : bytes) : option (codepoint * bytes) :=
  match bs with
  | [] => None
  | b0 :: r0 =>
      let x0 := Z_of_byte b0 in
      if x0 <? 0x80 then Some (x0, r0)
      else if x0 <? 0xE0 then
        match r0 with
        | b1 :: r1 => Some ((x0 - 0xC0) * 64 + (Z_of_byte b1 - 0x80), r1)
        | _ => None
        end
      else if x0 <? 0xF0 then
        match r0 with
        | b1 :: b2 :: r2 =>
            Some ((x0 - 0xE0) * 4096 + (Z_of_byte b1 - 0x80) * 64
                  + (Z_of_byte b2 - 0x80), r2)
        | _ => None
        end
      else
        match r0 with
        | b1 :: b2 :: b3 :: r3 =>
            Some ((x0 - 0xF0) * 262144 + (Z_of_byte b1 - 0x80) * 4096
                  + (Z_of_byte b2 - 0x80) * 64 + (Z_of_byte b3 - 0x80), r3)
        | _ => None
        end
  end.

(** The exceptions of the two column rewrites. *)
Definition rewrite_exceptions : list exn :=
  [ KeyError (py "workerid"); KeyError (py "hitId");
    AttributeError; UnicodeEncodeError ].

(** ** The text of a CSV file

    The typed table of a file stands for its text.  For two kinds of
    column the text and what pandas makes of it are modelled: a column
    whose fields are all integer literals is read as int64 and written
    back in canonical decimal; a column whose fields are all plain words
    is read as strings and written back as it is.  Every other column
    (floats, booleans, missing values, mixed fields, spaces, quotes) is
    outside this part: [parse_column] answers [None] there. *)

(** A CSV file as the tokeniser hands it to dtype inference: for each
    column the header name and the text of its fields. *)
Abbreviation csv := (list (str * list str)).









Fixpoint distinct (names : list str) : bool :=
  match names with
  | [] => true
  | k :: names' => negb (bool_decide (k ∈ names')) && distinct names'
  end.










(** * Properties *)

(** ** Test vectors *)

Example digest_abc :
  anonymize_value (PStr (py "abc")) =
  Ok (PStr (py "ba7816bf8f01cfea414140de5dae2223b00361a396177a9cb410ff61f20015ad")).
Proof. vm_compute. reflexivity. Qed.

Example SHA256_abc :
  hexlify (SHA256 [x61; x62; x63]) =
  py "ba7816bf8f01cfea414140de5dae2223b00361a396177a9cb410ff61f20015ad".
Proof. vm_compute. reflexivity. Qed.

(** The two-block message of FIPS 180-4's examples (56 bytes: the padding
    spills into a second block). *)
Example digest_two_blocks :
  anonymize_value
    (PStr (py "abcdbcdecdefdefgefghfghighijhijkijkljklmklmnlmnomnopnopq")) =
  Ok (PStr (py "248d6a61d20638b8e5c026930c3e6039a33ce45964ff2167f6ecedd419db06c1")).
Proof. vm_compute. reflexivity. Qed.

(** ** The hash object computes the function of FIPS 180-4 *)

Section HashObject.

Implicit Types (h : chain) (buf data fed : bytes) (n m : nat).

Lemma absorb_blocks n : forall h buf,
  absorb n h buf = fold_left compress (List.map (block_at buf) (seq 0 n)) h.
Proof.
  induction n as [|n IH]; intros h buf; [reflexivity|].
  cbn [absorb seq List.map fold_left].
  change (block_at buf 0) with (firstn 64 buf).
  rewrite IH. f_equal. rewrite <- seq_shift, List.map_map.
  apply List.map_ext. intros i. unfold block_at.
  rewrite skipn_skipn. do 2 f_equal. lia.
Qed.

Lemma absorb_prefix n : forall h buf data,
  (64 * n <= length buf)%nat -> absorb n h (buf ++ data) = absorb n h buf.
Proof.
  induction n as [|n IH]; intros h buf data Hlen; [reflexivity|].
  simpl absorb.
  rewrite firstn_app, skipn_app.
  replace (64 - length buf)%nat with O by lia. simpl firstn. simpl skipn.
  rewrite app_nil_r. apply IH. rewrite length_skipn. lia.
Qed.

Lemma absorb_add n : forall m h buf,
  absorb (n + m) h buf = absorb m (absorb n h buf) (skipn (64 * n) buf).
Proof.
  induction n as [|n IH]; intros m h buf; [reflexivity|].
  simpl absorb. rewrite IH, skipn_skipn. do 2 f_equal. lia.
Qed.

Lemma padding_length n :
  length (padding n) = (9 + Z.to_nat ((55 - Z.of_nat n) mod 64))%nat.
Proof.
  unfold padding. simpl length. rewrite length_app, repeat_length.
  simpl length. lia.
Qed.

Lemma padded_length n : exists m, (n + length (padding n) = 64 * m)%nat.
Proof.
  rewrite padding_length.
  pose proof (Z.mod_pos_bound (55 - Z.of_nat n) 64 ltac:(lia)) as Hb.
  pose proof (Z.div_mod (55 - Z.of_nat n) 64 ltac:(lia)) as Hd.
  exists (Z.to_nat (1 - (55 - Z.of_nat n) / 64)). lia.
Qed.

Lemma holds_new : holds sha256_new [].
Proof. repeat split. Qed.

Lemma holds_update o fed data :
  holds o fed -> holds (sha256_update o data) (fed ++ data).
Proof.
  intros (Hc & Hp & Ht).
  pose proof (Nat.div_mod_eq (length fed) 64) as Hq.
  pose proof (Nat.mod_upper_bound (length fed) 64 ltac:(lia)) as Hr.
  set (q := (length fed / 64)%nat) in *.
  assert (Hdrop : skipn (64 * q) (fed ++ data) = pending o ++ data).
  { rewrite skipn_app, Hp. f_equal.
    replace (64 * q - length fed)%nat with O by lia. reflexivity. }
  assert (Hlen : length (pending o ++ data)
                 = (length fed mod 64 + length data)%nat).
  { rewrite length_app, Hp, length_skipn. lia. }
  assert (Hdiv : (length (fed ++ data) / 64
                  = q + length (pending o ++ data) / 64)%nat).
  { rewrite Hlen, length_app, <- Nat.div_add_l by lia. f_equal. lia. }
  unfold holds, sha256_update. cbn [chaining pending total].
  split; [|split].
  - rewrite Hdiv, absorb_add, Hdrop, Hc. f_equal.
    symmetry. apply absorb_prefix. lia.
  - rewrite Hdiv, <- Hdrop, skipn_skipn. f_equal. lia.
  - rewrite Ht, length_app. reflexivity.
Qed.

Lemma holds_digest o fed : holds o fed -> digest o = SHA256 fed.
Proof.
  intros (Hc & Hp & Ht).
  pose proof (Nat.div_mod_eq (length fed) 64) as Hq.
  pose proof (Nat.mod_upper_bound (length fed) 64 ltac:(lia)) as Hr.
  destruct (padded_length (length fed)) as [m Hm].
  set (q := (length fed / 64)%nat) in *.
  assert (Hdrop : skipn (64 * q) (fed ++ padding (length fed))
                  = pending o ++ padding (total o)).
  { rewrite skipn_app, Hp, Ht. f_equal.
    replace (64 * q - length fed)%nat with O by lia. reflexivity. }
  assert (Htail : length (pending o ++ padding (total o))
                  = (64 * (m - q))%nat).
  { rewrite length_app, Hp, Ht, length_skipn. lia. }
  assert (Hdiv : (length (fed ++ padding (length fed)) / 64
                  = q + length (pending o ++ padding (total o)) / 64)%nat).
  { rewrite Htail, length_app, Hm.
    rewrite (Nat.mul_comm 64 m), (Nat.mul_comm 64 (m - q)).
    rewrite !Nat.div_mul by lia. lia. }
  unfold digest, SHA256, blocks. f_equal.
  rewrite <- absorb_blocks, Hdiv, absorb_add, Hdrop, Hc. f_equal.
  symmetry. apply absorb_prefix. lia.
Qed.

(** An object fed in any number of pieces hashes their concatenation. *)
Lemma update_many parts :
  holds (fold_left sha256_update parts sha256_new) (concat parts).
Proof.
  rewrite <- (app_nil_l (concat parts)).
  generalize holds_new. generalize sha256_new, (@nil byte).
  induction parts as [|p parts IH]; intros o fed Ho; simpl.
  - rewrite app_nil_r. exact Ho.
  - rewrite app_assoc. apply IH, holds_update, Ho.
Qed.

Lemma hashlib_sha256_digest data :
  digest (hashlib_sha256 data) = SHA256 data.
Proof.
  apply holds_digest. unfold hashlib_sha256.
  apply (holds_update sha256_new [] data holds_new).
Qed.

End HashObject.

(** ** The digest rendered in hexadecimal *)

Lemma Z_of_byte_range b : 0 <= Z_of_byte b < 256.
Proof.
  unfold Z_of_byte. pose proof (Byte.to_N_bounded b) as Hb.
  lia.
Qed.

Lemma hex_digit_lower d : 0 <= d < 16 -> is_lower_hex (hex_digit d) = true.
Proof.
  intros Hd. unfold is_lower_hex, hex_digit.
  rewrite orb_true_iff, !andb_true_iff, !Z.leb_le.
  destruct (Z.ltb_spec d 10); lia.
Qed.

Lemma hexlify_length bs : length (hexlify bs) = (2 * length bs)%nat.
Proof.
  induction bs as [|b bs IH]; [reflexivity|].
  unfold hexlify in *. cbn [flat_map hex_of_byte app length]. lia.
Qed.

Lemma hexlify_lower bs : Forall (fun c => is_lower_hex c = true) (hexlify bs).
Proof.
  induction bs as [|b bs IH]; [constructor|].
  pose proof (Z_of_byte_range b) as Hb.
  unfold hexlify in *. cbn [flat_map hex_of_byte app].
  repeat constructor; [| |exact IH]; apply hex_digit_lower.
  - split; [apply Z.div_pos; lia | apply Z.div_lt_upper_bound; lia].
  - apply Z.mod_pos_bound. lia.
Qed.

Lemma chain_bytes_length h : length (chain_bytes h) = 32%nat.
Proof. reflexivity. Qed.

Lemma hexdigest_form o :
  length (hexdigest o) = 64%nat /\
  Forall (fun c => is_lower_hex c = true) (hexdigest o).
Proof.
  unfold hexdigest. split; [|apply hexlify_lower].
  rewrite hexlify_length. unfold digest. rewrite chain_bytes_length. reflexivity.
Qed.

(** ** The domain of the codec *)

Lemma encode_codepoint_scalar c :
  is_Some (encode_codepoint c) <-> is_scalar c = true.
Proof.
  unfold encode_codepoint, is_scalar, is_surrogate.
  destruct (Z.ltb_spec c 0), (Z.ltb_spec c 0x80), (Z.ltb_spec c 0x800),
    (Z.ltb_spec c 0x10000), (Z.leb_spec c 0x10FFFF),
    (Z.leb_spec 0xD800 c), (Z.leb_spec c 0xDFFF), (Z.leb_spec 0 c);
    cbn; split; intros Hs; try lia; try done; try (by destruct Hs).
Qed.

Lemma str_encode_scalar s :
  is_Some (str_encode s) <-> forallb is_scalar s = true.
Proof.
  induction s as [|c s IH]; cbn [str_encode forallb]; [done|].
  rewrite andb_true_iff, <- IH, <- encode_codepoint_scalar.
  destruct (encode_codepoint c), (str_encode s); split;
    try (intros [? ?]); try (intros [[? ?] [? ?]]); done.
Qed.

Example encode_latin : str_encode [0xE9] = Some [xc3; xa9].
Proof. reflexivity. Qed.
Example encode_euro : str_encode [0x20AC] = Some [xe2; x82; xac].
Proof. reflexivity. Qed.
Example encode_astral : str_encode [0x1F600] = Some [xf0; x9f; x98; x80].
Proof. reflexivity. Qed.
Example encode_surrogate : str_encode [0xD800] = None.
Proof. reflexivity. Qed.
Example encode_boundaries :
  str_encode [0x7F; 0x80; 0x7FF; 0x800; 0xD7FF; 0xE000; 0xFFFF; 0x10000; 0x10FFFF]
  = Some [x7f; xc2; x80; xdf; xbf; xe0; xa0; x80; xed; x9f; xbf; xee; x80; x80;
          xef; xbf; xbf; xf0; x90; x80; x80; xf4; x8f; xbf; xbf].
Proof. reflexivity. Qed.

(** ** anonymize_value *)

Lemma anonymize_value_str s :
  anonymize_value (PStr s) =
  match sha256_hexdigest s with
  | Some d => Ok (PStr d)
  | None => Raise UnicodeEncodeError
  end.
Proof.
  unfold anonymize_value, sha256_hexdigest, encode.
  destruct (str_encode s) as [bs|]; [|reflexivity].
  cbn [rbind]. unfold hexdigest. rewrite hashlib_sha256_digest. reflexivity.
Qed.

Lemma anonymize_value_shape v v' :
  anonymize_value v = Ok v' ->
  exists s d, v = PStr s /\ v' = PStr d /\ length d = 64%nat /\
              Forall (fun c => is_lower_hex c = true) d.
Proof.
  unfold anonymize_value, encode. intros Hv.
  destruct v as [s| | |]; try discriminate.
  destruct (str_encode s) as [bs|]; [|discriminate].
  cbn [rbind] in Hv. injection Hv as <-.
  exists s, (hexdigest (hashlib_sha256 bs)).
  repeat split; apply hexdigest_form.
Qed.

Lemma anonymize_value_other v :
  is_str v = false -> anonymize_value v = Raise AttributeError.
Proof. destruct v; [discriminate|reflexivity..]. Qed.

(** ** Columns *)

Section Columns.

Implicit Types (t : table) (key : str) (vs : Series).

Lemma Series_apply_hashes vs vs' :
  Series_apply anonymize_value vs = Ok vs' <-> hashes vs vs'.
Proof.
  unfold hashes. split.
  - revert vs'. induction vs as [|v vs IH]; intros vs' Ha; cbn [Series_apply] in Ha.
    + injection Ha as <-. constructor.
    + destruct (anonymize_value v) as [d|e] eqn:Hv; [|discriminate].
      destruct (Series_apply anonymize_value vs) as [r|e]; [|discriminate].
      cbn [rbind] in Ha. injection Ha as <-.
      constructor; [exact Hv | by apply IH].
  - induction 1 as [|v d vs r Hv _ IH]; cbn [Series_apply]; [reflexivity|].
    by rewrite Hv, IH.
Qed.

Lemma Series_apply_raises vs v :
  v ∈ vs -> (forall v', anonymize_value v <> Ok v') ->
  exists e, Series_apply anonymize_value vs = Raise e.
Proof.
  intros Hin Hv.
  destruct (Series_apply anonymize_value vs) as [vs'|e] eqn:Ha; [|by eexists].
  apply Series_apply_hashes in Ha.
  apply list_elem_of_lookup in Hin as [i Hi].
  destruct (Forall2_lookup_l _ _ _ _ _ Ha Hi) as (v' & _ & Hv').
  by destruct (Hv v').
Qed.

Lemma column_set_column t key vs vs' :
  column t key = Some vs -> column (set_column t key vs') key = Some vs'.
Proof.
  induction t as [|[k old] t IH]; cbn [column set_column]; [discriminate|].
  destruct (decide (k = key)) as [->|Hk]; cbn [column].
  - by rewrite decide_True.
  - by rewrite decide_False.
Qed.

Lemma column_set_column_ne t key key' vs' :
  key <> key' -> column (set_column t key vs') key' = column t key'.
Proof.
  intros Hne.
  induction t as [|[k old] t IH]; cbn [column set_column].
  - by rewrite decide_False.
  - destruct (decide (k = key)) as [->|Hk]; cbn [column].
    + by rewrite !decide_False.
    + by rewrite IH.
Qed.

Lemma column_after_refl key (c : str * Series) : column_after key c c.
Proof. split; [reflexivity | by left]. Qed.

Lemma set_column_after t key vs vs' :
  column t key = Some vs -> hashes vs vs' ->
  Forall2 (column_after key) t (set_column t key vs').
Proof.
  intros Hc Hh.
  induction t as [|[k old] t IH]; cbn [column set_column] in *; [discriminate|].
  destruct (decide (k = key)) as [->|Hk].
  - injection Hc as ->. constructor.
    + split; [reflexivity | right; done].
    + apply Forall_Forall2_diag, Forall_forall. intros; apply column_after_refl.
  - constructor; [apply column_after_refl | by apply IH].
Qed.

Lemma is_identifier_spec key :
  is_identifier key = true <-> key = py "workerid" \/ key = py "hitId".
Proof.
  unfold is_identifier.
  rewrite orb_true_iff, !bool_decide_eq_true. reflexivity.
Qed.

Lemma column_after_both (c c1 c2 : str * Series) :
  column_after (py "workerid") c c1 -> column_after (py "hitId") c1 c2 ->
  kept_or_hashed c c2.
Proof.
  intros [Hk1 H1] [Hk2 H2]. split; [congruence|].
  destruct H1 as [E1|[Hw Hh1]], H2 as [E2|[Hi Hh2]].
  - left. congruence.
  - right. rewrite <- E1. split; [|done].
    apply is_identifier_spec. right. congruence.
  - right. rewrite E2. split; [|done].
    apply is_identifier_spec. by left.
  - rewrite Hk1, Hw in Hi. discriminate.
Qed.

Lemma kept_or_hashed_header t t' :
  Forall2 kept_or_hashed t t' -> header t' = header t.
Proof.
  unfold header.
  induction 1 as [|c c' t t' [Hk _] _ IH]; cbn [List.map]; [reflexivity|].
  by rewrite Hk, IH.
Qed.

Lemma kept_or_hashed_nrows t t' :
  Forall2 kept_or_hashed t t' -> nrows t' = nrows t.
Proof.
  destruct 1 as [|c c' t t' [_ [Hc|[_ Hh]]] _]; cbn [nrows].
  - reflexivity.
  - by rewrite Hc.
  - symmetry. eapply Forall2_length, Hh.
Qed.

Lemma kept_or_hashed_row t t' i r :
  Forall2 kept_or_hashed t t' -> row t i = Some r ->
  exists r', row t' i = Some r' /\
             Forall2 cell_after (combine (header t) r) r'.
Proof.
  intros Hall. revert r.
  induction Hall as [|c c' t t' [Hk Hc] _ IH]; intros r; cbn [row header List.map].
  - intros [= <-]. exists []. split; [reflexivity | constructor].
  - destruct (snd c !! i) as [v|] eqn:Hv; [|discriminate].
    destruct (row t i) as [r0|] eqn:Hr; [|discriminate].
    intros [= <-]. destruct (IH r0 eq_refl) as (r0' & -> & Hcells).
    destruct Hc as [->|[Hid Hh]].
    + rewrite Hv. exists (v :: r0'). split; [reflexivity|].
      constructor; [by left | exact Hcells].
    + destruct (Forall2_lookup_l _ _ _ _ _ Hh Hv) as (v' & -> & Hv').
      exists (v' :: r0'). split; [reflexivity|].
      constructor; [by right | exact Hcells].
Qed.

End Columns.

(** ** The script *)

Section Script.

Implicit Types (w : world) (df : DataFrame).

Lemma rewrite_column_spec df key df' :
  rewrite_column df key = Ok df' ->
  exists vs vs', column (data df) key = Some vs /\ hashes vs vs' /\
                 df' = Frame (index df) (set_column (data df) key vs').
Proof.
  unfold rewrite_column, getitem, setitem. intros Hr.
  destruct (column (data df) key) as [vs|]; [|discriminate].
  cbn [rbind] in Hr.
  destruct (Series_apply anonymize_value vs) as [vs'|] eqn:Ha; [|discriminate].
  cbn [rbind] in Hr. injection Hr as <-.
  exists vs, vs'. by rewrite <- Series_apply_hashes.
Qed.

Lemma workerid_hitId : py "workerid" <> py "hitId".
Proof. discriminate. Qed.

Lemma rewritten_spec df df' :
  rewritten df = Ok df' ->
  Forall2 kept_or_hashed (data df) (data df') /\
  forall key, is_identifier key = true ->
    exists vs vs', column (data df) key = Some vs /\
                   column (data df') key = Some vs' /\ hashes vs vs'.
Proof.
  unfold rewritten. intros Hr.
  destruct (rewrite_column df (py "workerid")) as [df1|] eqn:H1; [|discriminate].
  cbn [rbind] in Hr.
  apply rewrite_column_spec in H1 as (ws & ws' & Hws & Hwh & ->).
  apply rewrite_column_spec in Hr as (hs & hs' & Hhs & Hhh & ->).
  cbn [data] in *. split.
  - eapply Forall2_trans; [apply column_after_both | |].
    + exact (set_column_after _ _ _ _ Hws Hwh).
    + exact (set_column_after _ _ _ _ Hhs Hhh).
  - intros key [->| ->]%is_identifier_spec.
    + exists ws, ws'. split; [exact Hws|]. split; [|exact Hwh].
      rewrite column_set_column_ne by (symmetry; apply workerid_hitId).
      by apply column_set_column with (vs := ws).
    + exists hs, hs'. split; [|split; [|exact Hhh]].
      * by rewrite column_set_column_ne in Hhs by apply workerid_hitId.
      * by apply column_set_column with (vs := hs).
Qed.

Lemma run_unfold w :
  run w =
  match files w !! input_path with
  | None => (Raise (FileNotFoundError input_path), w)
  | Some [] => (Raise EmptyDataError, w)
  | Some t =>
      match rewritten (Frame (nrows t) t) with
      | Ok df' =>
          (Ok tt, World (<[output_path := data df']> (files w))
                        (console w ++ [completion_message]))
      | Raise e => (Raise e, w)
      end
  end.
Proof.
  unfold run, bind, read_csv, lift, rewritten, rewrite_column.
  destruct (files w !! input_path) as [[|c t]|]; [reflexivity| |reflexivity].
  destruct (getitem _ (py "workerid")) as [s1|]; [|reflexivity].
  cbn [rbind].
  destruct (Series_apply anonymize_value s1) as [s1'|]; [|reflexivity].
  cbn [rbind].
  destruct (getitem _ (py "hitId")) as [s2|]; [|reflexivity].
  cbn [rbind].
  destruct (Series_apply anonymize_value s2) as [s2'|]; reflexivity.
Qed.

(** A run that fails leaves the files and the console as they were. *)
Lemma run_raises w w' e : run w = (Raise e, w') -> w' = w.
Proof.
  rewrite run_unfold.
  destruct (files w !! input_path) as [[|c t]|]; try (by intros [= _ <-]).
  destruct (rewritten _); [discriminate | by intros [= _ <-]].
Qed.

Lemma run_ok w w' t :
  files w !! input_path = Some t -> run w = (Ok tt, w') ->
  exists t',
    w' = World (<[output_path := t']> (files w))
               (console w ++ [completion_message]) /\
    Forall2 kept_or_hashed t t' /\
    forall key, is_identifier key = true ->
      exists vs vs', column t key = Some vs /\ column t' key = Some vs' /\
                     hashes vs vs'.
Proof.
  intros Hin. rewrite run_unfold, Hin.
  destruct t as [|c t]; [discriminate|].
  destruct (rewritten _) as [df'|] eqn:Hr; [|discriminate].
  intros [= <-]. exists (data df'). split; [reflexivity|].
  exact (rewritten_spec _ _ Hr).
Qed.

(** A cell of an identifier column that is not a string stops the run:
    there is no handling of missing values. *)
Lemma run_non_string_cell w t key vs v :
  files w !! input_path = Some t -> is_identifier key = true ->
  column t key = Some vs -> v ∈ vs -> is_str v = false ->
  exists e, run w = (Raise e, w).
Proof.
  intros Hin Hid Hc Hv Hs. destruct (run w) as [[[]|e] w'] eqn:Hrun.
  - destruct (run_ok _ _ _ Hin Hrun) as (t' & _ & _ & Hcols).
    destruct (Hcols key Hid) as (vs0 & vs' & Hc0 & _ & Hh).
    rewrite Hc in Hc0. injection Hc0 as <-.
    apply Series_apply_hashes in Hh.
    destruct (Series_apply_raises vs v Hv) as [e He]; [|congruence].
    intros v'. by rewrite anonymize_value_other.
  - exists e. by rewrite (run_raises _ _ _ Hrun).
Qed.

End Script.

Lemma run_success w t df' :
  files w !! input_path = Some t ->
  rewritten (Frame (nrows t) t) = Ok df' ->
  run w = (Ok tt, World (<[output_path := data df']> (files w))
                        (console w ++ [completion_message])).
Proof.
  intros Hin Hr. rewrite run_unfold, Hin.
  destruct t as [|c t]; [discriminate|]. by rewrite Hr.
Qed.

Example scenario_rewritten :
  rewritten (Frame (nrows scenario) scenario) = Ok (Frame 2 scenario_output).
Proof. vm_compute. reflexivity. Qed.

Example run_scenario : run scenario_world = (Ok tt, scenario_result).
Proof.
  rewrite (run_success scenario_world scenario _ eq_refl scenario_rewritten).
  reflexivity.
Qed.


Lemma row_length (t : table) i r : row t i = Some r -> length r = length t.
Proof.
  revert r. induction t as [|c t IH]; intros r; cbn [row].
  - by intros [= <-].
  - destruct (snd c !! i); [|discriminate].
    destruct (row t i) as [r0|]; [|discriminate].
    intros [= <-]. cbn [length]. by rewrite (IH r0).
Qed.

Lemma lower_hex_scalar c : is_lower_hex c = true -> is_scalar c = true.
Proof.
  unfold is_lower_hex, is_scalar, is_surrogate.
  rewrite orb_true_iff, !andb_true_iff, negb_true_iff, andb_false_iff, !Z.leb_le,
    !Z.leb_gt. lia.
Qed.

Lemma scalar_digest (s : str) :
  forallb is_scalar s = true ->
  exists d, anonymize_value (PStr s) = Ok (PStr d) /\
            sha256_hexdigest s = Some d /\ length d = 64%nat /\
            Forall (fun c => is_lower_hex c = true) d.
Proof.
  intros [bs Hbs]%str_encode_scalar.
  rewrite anonymize_value_str. unfold sha256_hexdigest. rewrite Hbs.
  eexists. split; [reflexivity|]. split; [reflexivity|].
  split; [by rewrite hexlify_length | apply hexlify_lower].
Qed.

(** Hashing a digest again: the digest is text like any other. *)
Lemma anonymize_value_again (s d : str) :
  anonymize_value (PStr s) = Ok (PStr d) ->
  exists d', anonymize_value (PStr d) = Ok (PStr d') /\
             sha256_hexdigest d = Some d' /\ length d' = 64%nat /\
             Forall (fun c => is_lower_hex c = true) d'.
Proof.
  intros (s0 & d0 & _ & [= <-] & _ & Hhex)%anonymize_value_shape.
  apply scalar_digest, forallb_forall. intros c Hc.
  apply lower_hex_scalar. rewrite List.Forall_forall in Hhex. by apply Hhex.
Qed.

Example anonymize_alice_again :
  anonymize_value
    (PStr (py "2bd806c97f0e00af1a1fc3328fa763a9269723c8db8fac4f93af71db186d6e90")) =
  Ok (PStr (py "77555306307cbe22a6ee527f56c73377eebe0c6f0e649d393d917fa96fea30ed")).
Proof. vm_compute. reflexivity. Qed.

Lemma run_ok_input (w w' : world) :
  run w = (Ok tt, w') -> exists t, files w !! input_path = Some t.
Proof.
  rewrite run_unfold.
  destruct (files w !! input_path) as [t|]; [by exists t | discriminate].
Qed.

(** With [index=True] the file would start with the index column; the
    script passes [index=False]. *)
Example to_csv_index :
  files (snd (to_csv (Frame 2 scenario) output_path true scenario_world))
    !! output_path
  = Some (([], [PInt 0; PInt 1]) :: scenario).
Proof. vm_compute. reflexivity. Qed.

(** * The claims of the specification *)

(** C1. End-to-end scenario: with the rows (alice, HIT001, 5) and
    (bob, HIT002, 7) in the input file, the run succeeds and writes a table
    with the same header and row order, the score column unchanged (5, 7)
    and the two identifiers of each row replaced by the SHA-256
    hexadecimal digests of "alice", "HIT001", "bob" and "HIT002". *)
Theorem end_to_end_scenario (w : world) :
  files w !! input_path = Some scenario ->
  exists w' t,
    run w = (Ok tt, w') /\
    files w' !! output_path = Some t /\
    header t = header scenario /\
    header t = [py "workerid"; py "hitId"; py "score"] /\
    column t (py "score") = Some [PInt 5; PInt 7] /\
    (exists alice hit001 bob hit002,
       sha256_hexdigest (py "alice") = Some alice /\
       sha256_hexdigest (py "HIT001") = Some hit001 /\
       sha256_hexdigest (py "bob") = Some bob /\
       sha256_hexdigest (py "HIT002") = Some hit002 /\
       rows t = [ Some [PStr alice; PStr hit001; PInt 5];
                  Some [PStr bob; PStr hit002; PInt 7] ]) /\
    t = scenario_output.
Proof.
  intros Hin.
  eexists _, scenario_output.
  split; [exact (run_success _ _ _ Hin scenario_rewritten)|].
  cbn [files]. split; [apply lookup_insert_eq|].
  do 3 (split; [reflexivity|]). split; [|reflexivity].
  eexists _, _, _, _.
  do 4 (split; [vm_compute; reflexivity|]). vm_compute. reflexivity.
Qed.

Lemma end_to_end_scenario_witness :
  exists w' t,
    run scenario_world = (Ok tt, w') /\
    files w' !! output_path = Some t /\
    header t = header scenario /\
    header t = [py "workerid"; py "hitId"; py "score"] /\
    column t (py "score") = Some [PInt 5; PInt 7] /\
    (exists alice hit001 bob hit002,
       sha256_hexdigest (py "alice") = Some alice /\
       sha256_hexdigest (py "HIT001") = Some hit001 /\
       sha256_hexdigest (py "bob") = Some bob /\
       sha256_hexdigest (py "HIT002") = Some hit002 /\
       rows t = [ Some [PStr alice; PStr hit001; PInt 5];
                  Some [PStr bob; PStr hit002; PInt 7] ]) /\
    t = scenario_output.
Proof.
  apply (end_to_end_scenario scenario_world). reflexivity.
Defined.

(** C2 (amended). For every string without surrogate code points,
    [anonymize_value] returns the SHA-256 digest (FIPS 180-4) of the UTF-8
    bytes of the string, in hexadecimal; the bytes hashed are those of the
    string alone: no salt, no key.  The digest function is the one whose
    value on "abc" is the example of the standard. *)
Theorem anonymize_value_sha256_utf8 (s : str) :
  forallb is_scalar s = true ->
  (exists utf8,
     str_encode s = Some utf8 /\
     anonymize_value (PStr s) = Ok (PStr (hexlify (SHA256 utf8)))) /\
  hexlify (SHA256 [x61; x62; x63])
  = py "ba7816bf8f01cfea414140de5dae2223b00361a396177a9cb410ff61f20015ad".
Proof.
  intros [utf8 He]%str_encode_scalar. split; [|vm_compute; reflexivity].
  exists utf8. split; [exact He|].
  rewrite anonymize_value_str. unfold sha256_hexdigest. by rewrite He.
Qed.

Lemma anonymize_value_sha256_utf8_witness :
  (exists utf8,
     str_encode (py "alice") = Some utf8 /\
     anonymize_value (PStr (py "alice")) = Ok (PStr (hexlify (SHA256 utf8)))) /\
  hexlify (SHA256 [x61; x62; x63])
  = py "ba7816bf8f01cfea414140de5dae2223b00361a396177a9cb410ff61f20015ad".
Proof.
  apply (anonymize_value_sha256_utf8 (py "alice")). reflexivity.
Defined.

(** C2 as stated fails: the one-character string U+DFFF is a [str] that
    has no UTF-8 bytes, and [anonymize_value] raises on it instead of
    returning a digest. *)
Lemma anonymize_value_sha256_utf8_counterexample :
  Forall is_codepoint [0xDFFF] /\
  str_encode [0xDFFF] = None /\
  anonymize_value (PStr [0xDFFF]) = Raise UnicodeEncodeError /\
  ~ (exists utf8,
       anonymize_value (PStr [0xDFFF]) = Ok (PStr (hexlify (SHA256 utf8)))).
Proof.
  split; [repeat constructor; unfold is_codepoint; lia|].
  do 2 (split; [reflexivity|]). intros [utf8 Hu].
  change (anonymize_value (PStr [0xDFFF])) with (@Raise pyval UnicodeEncodeError) in Hu.
  discriminate Hu.
Qed.

(** C3 (amended). For every string without surrogate code points,
    [anonymize_value] returns a string of exactly 64 characters, all of
    them in the lowercase hexadecimal alphabet 0-9a-f. *)
Theorem digest_shape (s : str) :
  forallb is_scalar s = true ->
  exists d, anonymize_value (PStr s) = Ok (PStr d) /\
            length d = 64%nat /\
            Forall (fun c => is_lower_hex c = true) d.
Proof.
  intros (d & Hd & _ & Hlen & Hhex)%scalar_digest. by exists d.
Qed.

Lemma digest_shape_witness :
  exists d, anonymize_value (PStr (py "HIT001")) = Ok (PStr d) /\
            length d = 64%nat /\
            Forall (fun c => is_lower_hex c = true) d.
Proof. apply (digest_shape (py "HIT001")). reflexivity. Defined.

(** C3 as stated fails: the one-character string U+D800 is a [str], and
    [anonymize_value] raises on it instead of returning 64 characters. *)
Lemma digest_shape_counterexample :
  Forall is_codepoint [0xD800] /\
  anonymize_value (PStr [0xD800]) = Raise UnicodeEncodeError /\
  ~ (exists d, anonymize_value (PStr [0xD800]) = Ok (PStr d) /\
               length d = 64%nat /\
               Forall (fun c => is_lower_hex c = true) d).
Proof.
  split; [repeat constructor; unfold is_codepoint; lia|].
  split; [reflexivity|]. intros (d & Hd & _). discriminate Hd.
Qed.

(** C4. [anonymize_value] is deterministic: two calls on the same value
    have the same outcome; and the same identifier, at any row of the
    identifier column of any two runs (or of one run), is replaced by the
    same token. *)
Theorem anonymize_value_deterministic (v : pyval) :
  (forall r1 r2, anonymize_value v = r1 -> anonymize_value v = r2 -> r1 = r2) /\
  (forall wa wa' ta wb wb' tb key ca cb ia ib,
     files wa !! input_path = Some ta -> run wa = (Ok tt, wa') ->
     files wb !! input_path = Some tb -> run wb = (Ok tt, wb') ->
     is_identifier key = true ->
     column ta key = Some ca -> ca !! ia = Some v ->
     column tb key = Some cb -> cb !! ib = Some v ->
     exists ta' tb' ca' cb' d,
       files wa' !! output_path = Some ta' /\ column ta' key = Some ca' /\
       files wb' !! output_path = Some tb' /\ column tb' key = Some cb' /\
       ca' !! ia = Some d /\ cb' !! ib = Some d /\
       anonymize_value v = Ok d).
Proof.
  split; [congruence|].
  intros wa wa' ta wb wb' tb key ca cb ia ib Ha Hra Hb Hrb Hid Hca Hia Hcb Hib.
  destruct (run_ok _ _ _ Ha Hra) as (ta' & -> & _ & Hcola).
  destruct (run_ok _ _ _ Hb Hrb) as (tb' & -> & _ & Hcolb).
  destruct (Hcola key Hid) as (ca0 & ca' & Hca0 & Hca' & Hha).
  destruct (Hcolb key Hid) as (cb0 & cb' & Hcb0 & Hcb' & Hhb).
  rewrite Hca in Hca0. injection Hca0 as <-.
  rewrite Hcb in Hcb0. injection Hcb0 as <-.
  destruct (Forall2_lookup_l _ _ _ _ _ Hha Hia) as (da & Hda & Hva).
  destruct (Forall2_lookup_l _ _ _ _ _ Hhb Hib) as (db & Hdb & Hvb).
  assert (db = da) as -> by congruence.
  exists ta', tb', ca', cb', da. cbn [files].
  rewrite !lookup_insert_eq. done.
Qed.

Lemma anonymize_value_deterministic_witness :
  exists ta' tb' ca' cb' d,
    files scenario_result !! output_path = Some ta' /\
    column ta' (py "workerid") = Some ca' /\
    files scenario_result !! output_path = Some tb' /\
    column tb' (py "workerid") = Some cb' /\
    ca' !! 1%nat = Some d /\ cb' !! 1%nat = Some d /\
    anonymize_value (PStr (py "bob")) = Ok d.
Proof.
  apply (proj2 (anonymize_value_deterministic (PStr (py "bob")))
           scenario_world scenario_result scenario
           scenario_world scenario_result scenario
           (py "workerid") [PStr (py "alice"); PStr (py "bob")]
           [PStr (py "alice"); PStr (py "bob")] 1%nat 1%nat);
    first [exact run_scenario | reflexivity].
Defined.


(** C6. After a run the output has as many rows as the input, in the same
    order: row [i] of the output is row [i] of the input, cell by cell,
    each cell kept or, in an identifier column, hashed; and the identifier
    columns hold, row by row, the digests of the input's.  Its header is
    the header of the input, field by field, and it has no column besides
    those of the input: no index column is written. *)
Theorem rows_preserved (w w' : world) (t : table) :
  files w !! input_path = Some t -> run w = (Ok tt, w') ->
  exists t',
    files w' !! output_path = Some t' /\
    nrows t' = nrows t /\
    length (rows t') = length (rows t) /\
    header t' = header t /\
    length t' = length t /\
    (forall i r, row t i = Some r ->
       exists r', row t' i = Some r' /\ length r' = length r /\
                  Forall2 cell_after (combine (header t) r) r') /\
    (forall key, is_identifier key = true ->
       exists vs vs', column t key = Some vs /\ column t' key = Some vs' /\
                      hashes vs vs').
Proof.
  intros Hin Hrun.
  destruct (run_ok _ _ _ Hin Hrun) as (t' & -> & Hall & Hids).
  pose proof (kept_or_hashed_nrows _ _ Hall) as Hn.
  exists t'. cbn [files]. split; [apply lookup_insert_eq|].
  split; [exact Hn|].
  split; [unfold rows; by rewrite !length_map, !length_seq|].
  split; [by apply kept_or_hashed_header|].
  split; [symmetry; eapply Forall2_length, Hall|].
  split; [|exact Hids].
  intros i r Hr.
  destruct (kept_or_hashed_row _ _ _ _ Hall Hr) as (r' & Hr' & Hcells).
  exists r'. split; [exact Hr'|]. split; [|exact Hcells].
  rewrite (row_length _ _ _ Hr), (row_length _ _ _ Hr').
  symmetry. eapply Forall2_length, Hall.
Qed.

Lemma rows_preserved_witness :
  exists t',
    files scenario_result !! output_path = Some t' /\
    nrows t' = nrows scenario /\
    length (rows t') = length (rows scenario) /\
    header t' = header scenario /\
    length t' = length scenario /\
    (forall i r, row scenario i = Some r ->
       exists r', row t' i = Some r' /\ length r' = length r /\
                  Forall2 cell_after (combine (header scenario) r) r') /\
    (forall key, is_identifier key = true ->
       exists vs vs', column scenario key = Some vs /\
                      column t' key = Some vs' /\ hashes vs vs').
Proof.
  apply (rows_preserved scenario_world scenario_result scenario);
    [reflexivity | exact run_scenario].
Defined.

(** C8. [anonymize_value] fails on every value that is not a string: the
    call raises AttributeError.  Missing cells are not handled apart: a
    non-string cell (such as the NaN of a missing cell) in an identifier
    column makes the run fail, leaving files and console as they were. *)
Theorem anonymize_value_non_string (v : pyval) :
  is_str v = false ->
  anonymize_value v = Raise AttributeError /\
  forall w t key vs,
    files w !! input_path = Some t -> is_identifier key = true ->
    column t key = Some vs -> v ∈ vs ->
    exists e, run w = (Raise e, w).
Proof.
  intros Hv. split; [by apply anonymize_value_other|].
  intros w t key vs Hin Hid Hc Hvs.
  by apply (run_non_string_cell w t key vs v).
Qed.

Lemma anonymize_value_non_string_witness :
  anonymize_value NaN = Raise AttributeError /\
  forall w t key vs,
    files w !! input_path = Some t -> is_identifier key = true ->
    column t key = Some vs -> NaN ∈ vs ->
    exists e, run w = (Raise e, w).
Proof. apply (anonymize_value_non_string NaN). reflexivity. Defined.

(** C9. A run that succeeds prints one line, the fixed completion message,
    and writes one file, [anonymized_participants.csv]; the file the
    message names is [anonymized_file.csv], a different name, and no file
    of that name is written. *)
Theorem completion_message_names_other_file (w w' : world) :
  run w = (Ok tt, w') ->
  console w' = console w ++ [completion_message] /\
  (exists t, files w' = <[output_path := t]> (files w)) /\
  output_path = "anonymized_participants.csv"%string /\
  quoted completion_message = Some "anonymized_file.csv"%string /\
  quoted completion_message <> Some output_path /\
  files w' !! "anonymized_file.csv"%string
    = files w !! "anonymized_file.csv"%string.
Proof.
  intros Hrun. destruct (run_ok_input _ _ Hrun) as [t Hin].
  destruct (run_ok _ _ _ Hin Hrun) as (t' & -> & _).
  cbn [files console]. split; [reflexivity|].
  split; [by exists t'|]. split; [reflexivity|]. split; [reflexivity|].
  split; [discriminate|]. by apply lookup_insert_ne.
Qed.

Lemma completion_message_names_other_file_witness :
  console scenario_result = console scenario_world ++ [completion_message] /\
  (exists t, files scenario_result
             = <[output_path := t]> (files scenario_world)) /\
  output_path = "anonymized_participants.csv"%string /\
  quoted completion_message = Some "anonymized_file.csv"%string /\
  quoted completion_message <> Some output_path /\
  files scenario_result !! "anonymized_file.csv"%string
    = files scenario_world !! "anonymized_file.csv"%string.
Proof.
  apply (completion_message_names_other_file scenario_world scenario_result).
  exact run_scenario.
Defined.

(** C10 (amended). [anonymize_value] is total on the strings without
    surrogate code points, the empty string among them: it returns, and the
    result is the 64-character digest of the string; on any other string it
    raises UnicodeEncodeError.  The empty string is not a special case: its
    result is the digest of the empty byte sequence, e3b0c442...7852b855. *)
Theorem anonymize_value_total (s : str) :
  forallb is_scalar s = true ->
  (exists d, anonymize_value (PStr s) = Ok (PStr d) /\
             sha256_hexdigest s = Some d /\ length d = 64%nat /\
             Forall (fun c => is_lower_hex c = true) d) /\
  (forall s', forallb is_scalar s' = false ->
              anonymize_value (PStr s') = Raise UnicodeEncodeError) /\
  forallb is_scalar [] = true /\
  str_encode [] = Some [] /\
  anonymize_value (PStr []) =
    Ok (PStr (py "e3b0c44298fc1c149afbf4c8996fb92427ae41e4649b934ca495991b7852b855")) /\
  hexlify (SHA256 []) =
    py "e3b0c44298fc1c149afbf4c8996fb92427ae41e4649b934ca495991b7852b855".
Proof.
  intros Hs. split; [by apply scalar_digest|]. split.
  - intros s' Hs'. rewrite anonymize_value_str. unfold sha256_hexdigest.
    destruct (str_encode s') as [bs|] eqn:He; [|reflexivity].
    assert (forallb is_scalar s' = true) by (apply str_encode_scalar; by rewrite He).
    congruence.
  - do 2 (split; [reflexivity|]). split; vm_compute; reflexivity.
Qed.

Lemma anonymize_value_total_witness :
  (exists d, anonymize_value (PStr []) = Ok (PStr d) /\
             sha256_hexdigest [] = Some d /\ length d = 64%nat /\
             Forall (fun c => is_lower_hex c = true) d) /\
  (forall s', forallb is_scalar s' = false ->
              anonymize_value (PStr s') = Raise UnicodeEncodeError) /\
  forallb is_scalar [] = true /\
  str_encode [] = Some [] /\
  anonymize_value (PStr []) =
    Ok (PStr (py "e3b0c44298fc1c149afbf4c8996fb92427ae41e4649b934ca495991b7852b855")) /\
  hexlify (SHA256 []) =
    py "e3b0c44298fc1c149afbf4c8996fb92427ae41e4649b934ca495991b7852b855".
Proof. apply (anonymize_value_total []). reflexivity. Defined.

(** C10 as stated fails: "a" followed by the lone surrogate U+DC00 is a
    [str] on which [anonymize_value] does not return. *)
Lemma anonymize_value_total_counterexample :
  Forall is_codepoint [97; 0xDC00] /\
  anonymize_value (PStr [97; 0xDC00]) = Raise UnicodeEncodeError /\
  ~ (exists r, anonymize_value (PStr [97; 0xDC00]) = Ok r).
Proof.
  split; [repeat constructor; unfold is_codepoint; lia|].
  split; [reflexivity|]. intros [r Hr]. discriminate Hr.
Qed.

(** * Further properties of the script *)

Section Outcomes.

Implicit Types (w : world) (t : table) (vs : Series) (v : pyval).

Lemma hashable_spec v :
  hashable v = true <-> exists v', anonymize_value v = Ok v'.
Proof.
  split.
  - destruct v as [s| | |]; try discriminate. cbn [hashable].
    intros (d & Hd & _)%scalar_digest. by exists (PStr d).
  - intros [v' Hv]. destruct v as [s| | |]; try discriminate.
    cbn [hashable]. apply str_encode_scalar.
    rewrite anonymize_value_str in Hv. unfold sha256_hexdigest in Hv.
    destruct (str_encode s); [done | discriminate].
Qed.

Lemma Series_apply_hashable vs :
  forallb hashable vs = true <->
  exists vs', Series_apply anonymize_value vs = Ok vs'.
Proof.
  induction vs as [|v vs IH]; cbn [forallb Series_apply].
  - split; [by exists [] | done].
  - rewrite andb_true_iff, IH, hashable_spec. split.
    + intros [[v' Hv] [vs' Hvs]]. rewrite Hv, Hvs. by eexists.
    + intros [r Hr]. destruct (anonymize_value v) as [v'|]; [|discriminate].
      cbn [rbind] in Hr.
      destruct (Series_apply anonymize_value vs) as [vs'|]; [|discriminate].
      split; by eexists.
Qed.

Lemma hashes_tokens vs vs' : hashes vs vs' -> Forall is_token vs'.
Proof.
  induction 1 as [|v v' vs vs' Hv _ IH]; constructor; [|exact IH].
  apply anonymize_value_shape in Hv as (s & d & _ & -> & Hlen & Hhex).
  by exists d.
Qed.

Lemma token_hashable v : is_token v -> hashable v = true.
Proof.
  intros (d & -> & _ & Hhex). cbn [hashable].
  apply forallb_forall. intros c Hc. apply lower_hex_scalar.
  rewrite List.Forall_forall in Hhex. by apply Hhex.
Qed.

Lemma set_column_same t key vs :
  column t key = Some vs -> set_column t key vs = t.
Proof.
  induction t as [|[k old] t IH]; cbn [column set_column]; [discriminate|].
  destruct (decide (k = key)) as [->|Hk].
  - by intros [= ->].
  - intros Hc. by rewrite IH.
Qed.

Lemma rewritten_ok (df : DataFrame) ws hs :
  column (data df) (py "workerid") = Some ws -> forallb hashable ws = true ->
  column (data df) (py "hitId") = Some hs -> forallb hashable hs = true ->
  exists df', rewritten df = Ok df'.
Proof.
  intros Hw [ws' Hws]%Series_apply_hashable Hh [hs' Hhs]%Series_apply_hashable.
  unfold rewritten, rewrite_column, getitem, setitem.
  rewrite Hw. cbn [rbind]. rewrite Hws. cbn [rbind data].
  rewrite column_set_column_ne by apply workerid_hitId.
  rewrite Hh. cbn [rbind]. rewrite Hhs. cbn [rbind]. by eexists.
Qed.

Lemma anonymize_value_raises v e :
  anonymize_value v = Raise e -> e = AttributeError \/ e = UnicodeEncodeError.
Proof.
  unfold anonymize_value, encode.
  destruct v as [s| | |]; try (intros [= <-]; by left).
  destruct (str_encode s); [discriminate | intros [= <-]; by right].
Qed.

Lemma Series_apply_raises_kind vs e :
  Series_apply anonymize_value vs = Raise e ->
  e = AttributeError \/ e = UnicodeEncodeError.
Proof.
  induction vs as [|v vs IH]; cbn [Series_apply]; [discriminate|].
  destruct (anonymize_value v) as [v'|e'] eqn:Hv; cbn [rbind].
  - destruct (Series_apply anonymize_value vs) as [r|e'']; cbn [rbind];
      [discriminate|].
    intros [= <-]. by apply IH.
  - intros [= <-]. by apply anonymize_value_raises in Hv.
Qed.

Lemma Series_apply_first_failure pre v post e :
  forallb hashable pre = true -> anonymize_value v = Raise e ->
  Series_apply anonymize_value (pre ++ v :: post) = Raise e.
Proof.
  intros Hpre Hv. induction pre as [|u pre IH]; cbn [app Series_apply].
  - by rewrite Hv.
  - cbn [forallb] in Hpre. apply andb_true_iff in Hpre as [Hu Hpre].
    apply hashable_spec in Hu as [u' ->]. cbn [rbind]. by rewrite IH.
Qed.

Lemma rewrite_column_raises (df : DataFrame) key e :
  rewrite_column df key = Raise e ->
  e = KeyError key \/ e = AttributeError \/ e = UnicodeEncodeError.
Proof.
  unfold rewrite_column, getitem.
  destruct (column (data df) key) as [vs|]; cbn [rbind];
    [|intros [= <-]; by left].
  destruct (Series_apply anonymize_value vs) as [vs'|e'] eqn:Ha; cbn [rbind];
    [discriminate|].
  intros [= <-]. right. by apply Series_apply_raises_kind in Ha.
Qed.

Lemma anonymize_value_unhashable v :
  hashable v = false ->
  anonymize_value v
  = Raise (if is_str v then UnicodeEncodeError else AttributeError).
Proof.
  destruct v as [s| | |]; try reflexivity. cbn [hashable is_str]. intros Hs.
  rewrite anonymize_value_str. unfold sha256_hexdigest.
  destruct (str_encode s) as [bs|] eqn:He; [|reflexivity].
  assert (forallb is_scalar s = true) by (apply str_encode_scalar; by rewrite He).
  congruence.
Qed.

End Outcomes.

(** X1. Without the input file the script stops at [read_csv] with
    FileNotFoundError; with an input file that has no column it stops with
    EmptyDataError.  Either way nothing is written and nothing is printed. *)
Theorem run_without_input (w : world) :
  (files w !! input_path = None ->
   run w = (Raise (FileNotFoundError input_path), w)) /\
  (files w !! input_path = Some [] ->
   run w = (Raise EmptyDataError, w)).
Proof. split; intros Hin; by rewrite run_unfold, Hin. Qed.

Lemma run_without_input_witness :
  run (World ∅ []) = (Raise (FileNotFoundError input_path), World ∅ []) /\
  run (World {[ input_path := [] ]} [])
    = (Raise EmptyDataError, World {[ input_path := [] ]} []).
Proof.
  split.
  - apply (proj1 (run_without_input (World ∅ []))). reflexivity.
  - apply (proj2 (run_without_input (World {[ input_path := [] ]} []))).
    reflexivity.
Defined.

(** X2. A missing identifier column is a KeyError.  The workerid column is
    looked up first: without it the error names workerid whatever the rest
    of the table holds.  The hitId column is looked up once every workerid
    was hashed: without it the error names hitId, and the digests computed
    so far are lost, the output file is not written. *)
Theorem run_missing_column (w : world) (t : table) :
  files w !! input_path = Some t -> t <> [] ->
  (column t (py "workerid") = None ->
   run w = (Raise (KeyError (py "workerid")), w)) /\
  (forall ws, column t (py "workerid") = Some ws ->
     forallb hashable ws = true -> column t (py "hitId") = None ->
     run w = (Raise (KeyError (py "hitId")), w)).
Proof.
  intros Hin Ht. rewrite run_unfold, Hin.
  destruct t as [|c t]; [done|]. clear Ht.
  unfold rewritten, rewrite_column, getitem, setitem. cbn [data]. split.
  - intros ->. reflexivity.
  - intros ws Hw [ws' Hws]%Series_apply_hashable Hh.
    rewrite Hw. cbn [rbind]. rewrite Hws. cbn [rbind data].
    rewrite column_set_column_ne by apply workerid_hitId.
    rewrite Hh. reflexivity.
Qed.

Lemma run_missing_column_witness :
  run (World {[ input_path := [(py "score", [PInt 5])] ]} [])
  = (Raise (KeyError (py "workerid")),
     World {[ input_path := [(py "score", [PInt 5])] ]} []) /\
  run (World {[ input_path := [(py "workerid", [PStr (py "alice")])] ]} [])
  = (Raise (KeyError (py "hitId")),
     World {[ input_path := [(py "workerid", [PStr (py "alice")])] ]} []).
Proof.
  split.
  - refine (proj1 (run_missing_column
                     (World {[ input_path := [(py "score", [PInt 5])] ]} [])
                     [(py "score", [PInt 5])] _ _) _);
      [reflexivity | discriminate | reflexivity].
  - refine (proj2 (run_missing_column
                     (World {[ input_path := [(py "workerid", [PStr (py "alice")])] ]} [])
                     [(py "workerid", [PStr (py "alice")])] _ _)
              [PStr (py "alice")] _ _ _);
      [reflexivity | discriminate | reflexivity..].
Defined.

Lemma distinct_NoDup (names : list str) : distinct names = true -> NoDup names.
Proof.
  induction names as [|k names IH]; cbn [distinct]; [constructor|].
  rewrite andb_true_iff, negb_true_iff, bool_decide_eq_false.
  intros [Hk Hd]. constructor; [|by apply IH].
  by rewrite <- list_elem_of_In.
Qed.

(** X3. On a frame with distinct column labels, as [read_csv] gives it,
    the two column rewrites of the script fail only with KeyError for
    workerid, KeyError for hitId, AttributeError or UnicodeEncodeError. *)
Theorem rewritten_failure (df : DataFrame) (e : exn) :
  NoDup (header (data df)) ->
  rewritten df = Raise e -> e ∈ rewrite_exceptions.
Proof.
  intros _ Hr. unfold rewritten in Hr. unfold rewrite_exceptions.
  destruct (rewrite_column df (py "workerid")) as [df1|e1] eqn:H1;
    cbn [rbind] in Hr.
  - apply rewrite_column_raises in Hr as [->|[->| ->]];
      apply list_elem_of_In; cbn [In]; tauto.
  - injection Hr as ->.
    apply rewrite_column_raises in H1 as [->|[->| ->]];
      apply list_elem_of_In; cbn [In]; tauto.
Qed.

Lemma rewritten_failure_witness :
  KeyError (py "hitId") ∈ rewrite_exceptions.
Proof.
  apply (rewritten_failure (Frame 1 [(py "workerid", [PStr (py "alice")])])).
  - apply distinct_NoDup. reflexivity.
  - reflexivity.
Defined.

(** X4. On a frame with distinct column labels, as [read_csv] gives it,
    the two column rewrites of the script succeed exactly when the frame
    has a workerid and a hitId column and every cell of these two columns
    is a string without surrogate code points. *)
Theorem rewritten_succeeds_iff (df : DataFrame) :
  NoDup (header (data df)) ->
  ((exists df', rewritten df = Ok df') <->
   (exists ws hs,
      column (data df) (py "workerid") = Some ws /\
      forallb hashable ws = true /\
      column (data df) (py "hitId") = Some hs /\
      forallb hashable hs = true)).
Proof.
  intros _. split.
  - intros [df' Hr]. destruct (rewritten_spec _ _ Hr) as [_ Hids].
    destruct (Hids (py "workerid") eq_refl) as (ws & ws' & Hw & _ & Hhw).
    destruct (Hids (py "hitId") eq_refl) as (hs & hs' & Hh & _ & Hhh).
    exists ws, hs. repeat split; try done.
    + apply Series_apply_hashable. exists ws'. by apply Series_apply_hashes.
    + apply Series_apply_hashable. exists hs'. by apply Series_apply_hashes.
  - intros (ws & hs & Hw & Hws & Hh & Hhs).
    exact (rewritten_ok df ws hs Hw Hws Hh Hhs).
Qed.

Lemma rewritten_succeeds_iff_witness :
  (exists df', rewritten (Frame 2 scenario) = Ok df') <->
  (exists ws hs,
     column scenario (py "workerid") = Some ws /\
     forallb hashable ws = true /\
     column scenario (py "hitId") = Some hs /\
     forallb hashable hs = true).
Proof.
  apply (rewritten_succeeds_iff (Frame 2 scenario)).
  apply distinct_NoDup. reflexivity.
Defined.

(** X5. A run that succeeds writes the output file and no other: every
    other path, the input file among them, holds what it held before. *)
Theorem run_writes_output_only (w w' : world) (path : string) :
  run w = (Ok tt, w') -> path <> output_path ->
  files w' !! path = files w !! path /\
  files w' !! input_path = files w !! input_path /\
  is_Some (files w' !! output_path).
Proof.
  intros Hrun Hpath. destruct (run_ok_input _ _ Hrun) as [t Hin].
  destruct (run_ok _ _ _ Hin Hrun) as (t' & -> & _). cbn [files].
  split; [by apply lookup_insert_ne|].
  split; [by apply lookup_insert_ne|].
  rewrite lookup_insert_eq. by eexists.
Qed.

Lemma run_writes_output_only_witness :
  files scenario_result !! "notes.txt"%string
    = files scenario_world !! "notes.txt"%string /\
  files scenario_result !! input_path = files scenario_world !! input_path /\
  is_Some (files scenario_result !! output_path).
Proof.
  apply (run_writes_output_only scenario_world scenario_result "notes.txt");
    [exact run_scenario | discriminate].
Defined.

(** X6. Running the script again right after a successful run succeeds and
    leaves every file as the first run left it (the output is rewritten
    with the same table); only the completion message is printed once
    more. *)
Theorem run_twice (w w1 : world) :
  run w = (Ok tt, w1) ->
  run w1 = (Ok tt, World (files w1) (console w1 ++ [completion_message])).
Proof.
  intros Hrun. destruct (run_ok_input _ _ Hrun) as [t Hin].
  pose proof Hrun as Hrun'. rewrite run_unfold, Hin in Hrun'.
  destruct t as [|c t]; [discriminate|].
  destruct (rewritten _) as [df'|] eqn:Hr; [|discriminate].
  injection Hrun' as <-.
  assert (Hin1 : files (World (<[output_path := data df']> (files w))
                              (console w ++ [completion_message]))
                   !! input_path = Some (c :: t)).
  { cbn [files]. by rewrite lookup_insert_ne. }
  rewrite (run_success _ _ _ Hin1 Hr). cbn [files console].
  by rewrite insert_insert_eq.
Qed.

Lemma run_twice_witness :
  run scenario_result
  = (Ok tt, World (files scenario_result)
                  (console scenario_result ++ [completion_message])).
Proof. apply (run_twice scenario_world scenario_result). exact run_scenario. Defined.

(** X7. After a successful run every cell of the workerid and hitId
    columns of the output is a token, a string of 64 lowercase hexadecimal
    characters: no cell of these columns is written as it was read unless
    it was such a string already. *)
Theorem run_output_tokens (w w' : world) (key : str) :
  run w = (Ok tt, w') -> is_identifier key = true ->
  exists t' vs',
    files w' !! output_path = Some t' /\ column t' key = Some vs' /\
    Forall is_token vs'.
Proof.
  intros Hrun Hid. destruct (run_ok_input _ _ Hrun) as [t Hin].
  destruct (run_ok _ _ _ Hin Hrun) as (t' & -> & _ & Hids).
  destruct (Hids key Hid) as (vs & vs' & _ & Hc' & Hh).
  exists t', vs'. cbn [files]. rewrite lookup_insert_eq.
  repeat split; try done. by apply hashes_tokens in Hh.
Qed.

Lemma run_output_tokens_witness :
  exists t' vs',
    files scenario_result !! output_path = Some t' /\
    column t' (py "hitId") = Some vs' /\ Forall is_token vs'.
Proof.
  apply (run_output_tokens scenario_world scenario_result (py "hitId"));
    [exact run_scenario | reflexivity].
Defined.

(** X8. The output of a successful run is itself an input the script
    accepts: fed back as the input file, the run succeeds again (the tokens
    are strings like any other and are hashed once more). *)
Theorem run_on_output (w w' : world) (t' : table) (w2 : world) :
  run w = (Ok tt, w') -> files w' !! output_path = Some t' ->
  files w2 !! input_path = Some t' ->
  exists w2', run w2 = (Ok tt, w2').
Proof.
  intros Hrun Hout Hin2. destruct (run_ok_input _ _ Hrun) as [t Hin].
  destruct (run_ok _ _ _ Hin Hrun) as (t0 & -> & _ & Hids).
  cbn [files] in Hout. rewrite lookup_insert_eq in Hout. injection Hout as ->.
  destruct (Hids (py "workerid") eq_refl) as (ws & ws' & _ & Hw & Hhw).
  destruct (Hids (py "hitId") eq_refl) as (hs & hs' & _ & Hh & Hhh).
  assert (Hok : forall vs vs', hashes vs vs' -> forallb hashable vs' = true).
  { intros vs vs' Hv%hashes_tokens. apply forallb_forall. intros v Hv'.
    apply token_hashable. rewrite List.Forall_forall in Hv. by apply Hv. }
  destruct (rewritten_ok (Frame (nrows t') t') ws' hs' Hw (Hok _ _ Hhw)
              Hh (Hok _ _ Hhh)) as [df' Hr].
  eexists. exact (run_success _ _ _ Hin2 Hr).
Qed.

Lemma run_on_output_witness :
  exists w2', run (World {[ input_path := scenario_output ]} []) = (Ok tt, w2').
Proof.
  apply (run_on_output scenario_world scenario_result scenario_output
           (World {[ input_path := scenario_output ]} []));
    [exact run_scenario | reflexivity | reflexivity].
Defined.

(** X9. A table without rows (a header only) goes through unchanged: no
    value is hashed, the output file holds the table of the input, and the
    completion message is printed. *)
Theorem run_no_rows (w : world) (t : table) :
  files w !! input_path = Some t ->
  column t (py "workerid") = Some [] -> column t (py "hitId") = Some [] ->
  run w = (Ok tt, World (<[output_path := t]> (files w))
                        (console w ++ [completion_message])).
Proof.
  intros Hin Hw Hh.
  assert (Hr : rewritten (Frame (nrows t) t) = Ok (Frame (nrows t) t)).
  { unfold rewritten, rewrite_column, getitem, setitem. cbn [data index].
    rewrite Hw. cbn [rbind Series_apply data index].
    rewrite (set_column_same _ _ _ Hw), Hh. cbn [rbind Series_apply].
    by rewrite (set_column_same _ _ _ Hh). }
  exact (run_success _ _ _ Hin Hr).
Qed.

Lemma run_no_rows_witness :
  run (World {[ input_path := [(py "workerid", []); (py "hitId", [])] ]} [])
  = (Ok tt,
     World (<[output_path := [(py "workerid", []); (py "hitId", [])] ]>
              {[ input_path := [(py "workerid", []); (py "hitId", [])] ]})
           [completion_message]).
Proof.
  refine (run_no_rows
            (World {[ input_path := [(py "workerid", []); (py "hitId", [])] ]} [])
            [(py "workerid", []); (py "hitId", [])] _ _ _); reflexivity.
Defined.

(** X10. The first cell of the workerid column that cannot be hashed
    decides how the run fails: AttributeError when that cell is not a
    string (a number, a boolean, the NaN of a missing cell),
    UnicodeEncodeError when it is a string with a surrogate.  The cells
    after it are not looked at, and nothing is written. *)
Theorem run_first_bad_cell (w : world) (t : table) (pre post : Series) (v : pyval) :
  files w !! input_path = Some t ->
  column t (py "workerid") = Some (pre ++ v :: post) ->
  forallb hashable pre = true -> hashable v = false ->
  run w = (Raise (if is_str v then UnicodeEncodeError else AttributeError), w).
Proof.
  intros Hin Hw Hpre Hv. rewrite run_unfold, Hin.
  destruct t as [|c t]; [discriminate|].
  unfold rewritten, rewrite_column, getitem. cbn [data].
  rewrite Hw. cbn [rbind].
  rewrite (Series_apply_first_failure pre v post _ Hpre
             (anonymize_value_unhashable v Hv)).
  reflexivity.
Qed.

Lemma run_first_bad_cell_witness :
  run (World {[ input_path :=
                  [(py "workerid", [PStr (py "alice"); NaN; PStr [0xD800]]);
                   (py "hitId", [PStr (py "HIT001"); PInt 2; PInt 3])] ]} [])
  = (Raise AttributeError,
     World {[ input_path :=
                [(py "workerid", [PStr (py "alice"); NaN; PStr [0xD800]]);
                 (py "hitId", [PStr (py "HIT001"); PInt 2; PInt 3])] ]} []).
Proof.
  apply (run_first_bad_cell
           (World {[ input_path :=
                       [(py "workerid", [PStr (py "alice"); NaN; PStr [0xD800]]);
                        (py "hitId", [PStr (py "HIT001"); PInt 2; PInt 3])] ]} [])
           [(py "workerid", [PStr (py "alice"); NaN; PStr [0xD800]]);
            (py "hitId", [PStr (py "HIT001"); PInt 2; PInt 3])]
           [PStr (py "alice")] [PStr [0xD800]] NaN); reflexivity.
Defined.

(** * Further properties of anonymize_value *)

Section Codec.

Implicit Types (c : codepoint) (s : str) (b : byte) (bs : bytes).

Lemma Z_of_byte_of_Z z : Z_of_byte (byte_of_Z z) = z mod 256.
Proof.
  unfold Z_of_byte, byte_of_Z.
  pose proof (Z.mod_pos_bound z 256 ltac:(lia)) as Hz.
  destruct (Byte.of_N (Z.to_N (z mod 256))) as [b|] eqn:Hb.
  - apply Byte.to_of_N in Hb. change (default x00 (Some b)) with b.
    rewrite Hb. lia.
  - apply Byte.of_N_None_iff in Hb. lia.
Qed.

Lemma Z_of_byte_inj b1 b2 : Z_of_byte b1 = Z_of_byte b2 -> b1 = b2.
Proof.
  unfold Z_of_byte. intros Hb%N2Z.inj.
  pose proof (Byte.of_to_N b1) as H1. rewrite Hb, Byte.of_to_N in H1.
  congruence.
Qed.

Lemma land_high_low a k x :
  0 <= k -> 0 <= x < 2 ^ k -> Z.land (a * 2 ^ k) x = 0.
Proof.
  intros Hk Hx. apply Z.bits_inj'. intros n Hn.
  rewrite Z.land_spec, Z.bits_0.
  destruct (Z.lt_ge_cases n k) as [Hlt|Hge].
  - by rewrite Z.mul_pow2_bits_low.
  - rewrite andb_false_iff. right. apply Z.testbit_false; [done|].
    rewrite Z.div_small; [reflexivity|].
    split; [lia|]. apply Z.lt_le_trans with (2 ^ k); [lia|].
    apply Z.pow_le_mono_r; lia.
Qed.

Lemma lor_high_low a k x :
  0 <= k -> 0 <= x < 2 ^ k -> Z.lor (a * 2 ^ k) x = a * 2 ^ k + x.
Proof.
  intros Hk Hx. pose proof (land_high_low a k x Hk Hx) as Hl.
  by rewrite Z.add_nocarry_lxor, Z.lxor_lor.
Qed.

Lemma continuation_value c k :
  0 <= k -> Z_of_byte (continuation c k) = 128 + (c / 2 ^ k) mod 64.
Proof.
  intros Hk. unfold continuation. rewrite Z_of_byte_of_Z.
  change 0x3F with (Z.ones 6).
  rewrite Z.land_ones, Z.shiftr_div_pow2 by lia. change (2 ^ 6) with 64.
  pose proof (Z.mod_pos_bound (c / 2 ^ k) 64 ltac:(lia)) as Hm.
  change 0x80 with (1 * 2 ^ 7). rewrite lor_high_low by lia.
  apply Z.mod_small. lia.
Qed.

Lemma lead_value a k c n :
  0 <= k -> 0 <= n -> 0 <= a -> 0 <= c / 2 ^ n < 2 ^ k ->
  a * 2 ^ k + c / 2 ^ n < 256 ->
  Z_of_byte (byte_of_Z (Z.lor (a * 2 ^ k) (Z.shiftr c n)))
  = a * 2 ^ k + c / 2 ^ n.
Proof.
  intros Hk Hn Ha Hc Hlt. rewrite Z_of_byte_of_Z, Z.shiftr_div_pow2 by lia.
  rewrite lor_high_low by lia. apply Z.mod_small. nia.
Qed.

Ltac decide_lead :=
  repeat match goal with
         | |- context [?a <? ?b] =>
             destruct (Z.ltb_spec a b); try (exfalso; Z.div_mod_to_equations; lia)
         end;
  do 2 f_equal; Z.div_mod_to_equations; lia.

Lemma decode_first_encode c e rest :
  encode_codepoint c = Some e -> decode_first (e ++ rest) = Some (c, rest).
Proof.
  unfold encode_codepoint, is_surrogate.
  assert (Hc0 : Z_of_byte (continuation c 0) = 128 + c mod 64).
  { rewrite continuation_value by lia. by rewrite Z.pow_0_r, Z.div_1_r. }
  pose proof (continuation_value c 6 ltac:(lia)) as Hc6.
  pose proof (continuation_value c 12 ltac:(lia)) as Hc12.
  change (2 ^ 6) with 64 in Hc6. change (2 ^ 12) with 4096 in Hc12.
  destruct (Z.ltb_spec c 0) as [|H0]; [discriminate|].
  destruct (Z.ltb_spec c 0x80) as [H1|H1].
  { intros [= <-]. cbn [app]. unfold decode_first. cbv zeta.
    rewrite Z_of_byte_of_Z, Z.mod_small by lia. decide_lead. }
  destruct (Z.ltb_spec c 0x800) as [H2|H2].
  { intros [= <-].
    assert (Hl : Z_of_byte (byte_of_Z (Z.lor 0xC0 (Z.shiftr c 6)))
                 = 192 + c / 64).
    { apply (lead_value 3 6 c 6); try lia;
        change (2 ^ 6) with 64; Z.div_mod_to_equations; lia. }
    cbn [app]. unfold decode_first. cbv zeta. rewrite Hl, Hc0. decide_lead. }
  destruct (Z.ltb_spec c 0x10000) as [H3|H3].
  { destruct ((0xD800 <=? c) && (c <=? 0xDFFF)); [discriminate|].
    intros [= <-].
    assert (Hl : Z_of_byte (byte_of_Z (Z.lor 0xE0 (Z.shiftr c 12)))
                 = 224 + c / 4096).
    { apply (lead_value 7 5 c 12); try lia;
        change (2 ^ 5) with 32; change (2 ^ 12) with 4096;
        Z.div_mod_to_equations; lia. }
    cbn [app]. unfold decode_first. cbv zeta. rewrite Hl, Hc0, Hc6.
    decide_lead. }
  destruct (Z.leb_spec c 0x10FFFF) as [H4|H4]; [|discriminate].
  intros [= <-].
  assert (Hl : Z_of_byte (byte_of_Z (Z.lor 0xF0 (Z.shiftr c 18)))
               = 240 + c / 262144).
  { apply (lead_value 15 4 c 18); try lia;
      change (2 ^ 4) with 16; change (2 ^ 18) with 262144;
      Z.div_mod_to_equations; lia. }
  cbn [app]. unfold decode_first. cbv zeta. rewrite Hl, Hc0, Hc6, Hc12.
  decide_lead.
Qed.

Lemma hex_digit_inj d1 d2 :
  0 <= d1 < 16 -> 0 <= d2 < 16 -> hex_digit d1 = hex_digit d2 -> d1 = d2.
Proof.
  unfold hex_digit. intros H1 H2.
  destruct (Z.ltb_spec d1 10), (Z.ltb_spec d2 10); lia.
Qed.

Lemma hex_of_byte_inj b1 b2 : hex_of_byte b1 = hex_of_byte b2 -> b1 = b2.
Proof.
  unfold hex_of_byte. intros [= Hhi Hlo].
  pose proof (Z_of_byte_range b1). pose proof (Z_of_byte_range b2).
  apply hex_digit_inj in Hhi; [|Z.div_mod_to_equations; lia..].
  apply hex_digit_inj in Hlo; [|Z.div_mod_to_equations; lia..].
  apply Z_of_byte_inj. Z.div_mod_to_equations. lia.
Qed.

Lemma hexlify_inj bs1 bs2 : hexlify bs1 = hexlify bs2 -> bs1 = bs2.
Proof.
  revert bs2. unfold hexlify.
  induction bs1 as [|b1 bs1 IH]; intros [|b2 bs2]; cbn [flat_map hex_of_byte app];
    try discriminate; [reflexivity|].
  intros [= Hhi Hlo Hrest]. f_equal; [|by apply IH].
  apply hex_of_byte_inj. unfold hex_of_byte. by rewrite Hhi, Hlo.
Qed.

End Codec.

(** X11. [value.encode()] loses nothing: two strings with the same UTF-8
    bytes are the same string, so distinct identifiers are always hashed
    from distinct byte sequences. *)
Theorem str_encode_injective (s1 s2 : str) (utf8 : bytes) :
  str_encode s1 = Some utf8 -> str_encode s2 = Some utf8 -> s1 = s2.
Proof.
  revert s2 utf8.
  induction s1 as [|c1 s1 IH]; intros [|c2 s2] utf8; cbn [str_encode].
  - reflexivity.
  - intros [= <-].
    destruct (encode_codepoint c2) as [e2|] eqn:He2; [|discriminate].
    destruct (str_encode s2) as [r2|]; [|discriminate].
    intros [= Hnil]. apply app_eq_nil in Hnil as [-> _].
    by pose proof (decode_first_encode c2 [] [] He2).
  - destruct (encode_codepoint c1) as [e1|] eqn:He1; [|discriminate].
    destruct (str_encode s1) as [r1|]; [|discriminate].
    intros [= <-] [= Hnil]. symmetry in Hnil.
    apply app_eq_nil in Hnil as [-> _].
    by pose proof (decode_first_encode c1 [] [] He1).
  - destruct (encode_codepoint c1) as [e1|] eqn:He1; [|discriminate].
    destruct (str_encode s1) as [r1|] eqn:Hr1; [|discriminate].
    destruct (encode_codepoint c2) as [e2|] eqn:He2; [|discriminate].
    destruct (str_encode s2) as [r2|] eqn:Hr2; [|discriminate].
    intros [= <-] [= Heq].
    pose proof (decode_first_encode c1 e1 r1 He1) as H1.
    pose proof (decode_first_encode c2 e2 r2 He2) as H2.
    rewrite Heq, H1 in H2. injection H2 as <- <-.
    f_equal. by apply (IH s2 r1).
Qed.

Lemma str_encode_injective_witness : py "alice" = [97; 108; 105; 99; 101].
Proof.
  apply (str_encode_injective (py "alice") [97; 108; 105; 99; 101]
           [x61; x6c; x69; x63; x65]); reflexivity.
Defined.

(** X12. The hexadecimal rendering loses nothing either: two strings get
    the same token exactly when the SHA-256 digests of their UTF-8 bytes
    are equal.  A clash of tokens is a clash of digests. *)
Theorem same_token_iff (s1 s2 : str) (b1 b2 : bytes) :
  str_encode s1 = Some b1 -> str_encode s2 = Some b2 ->
  (anonymize_value (PStr s1) = anonymize_value (PStr s2)
   <-> SHA256 b1 = SHA256 b2).
Proof.
  intros H1 H2. rewrite !anonymize_value_str. unfold sha256_hexdigest.
  rewrite H1, H2. generalize (SHA256 b1), (SHA256 b2). intros d1 d2. split.
  - intros Heq. apply hexlify_inj. congruence.
  - by intros ->.
Qed.

Lemma same_token_iff_witness :
  anonymize_value (PStr (py "bob")) = anonymize_value (PStr (py "alice"))
  <-> SHA256 [x62; x6f; x62] = SHA256 [x61; x6c; x69; x63; x65].
Proof.
  apply (same_token_iff (py "bob") (py "alice")); reflexivity.
Defined.

(** X13. An ASCII string is hashed character by character: its UTF-8 bytes
    are its code points, one byte each, and the token is the SHA-256
    digest of these bytes in hexadecimal. *)
Theorem anonymize_value_ascii (s : str) :
  Forall (fun c => 0 <= c < 128) s ->
  str_encode s = Some (List.map byte_of_Z s) /\
  anonymize_value (PStr s)
  = Ok (PStr (hexlify (SHA256 (List.map byte_of_Z s)))).
Proof.
  intros Hs.
  assert (He : str_encode s = Some (List.map byte_of_Z s)).
  { induction Hs as [|c s Hc _ IH]; cbn [str_encode List.map]; [reflexivity|].
    rewrite IH. unfold encode_codepoint.
    destruct (Z.ltb_spec c 0); [lia|].
    destruct (Z.ltb_spec c 0x80); [reflexivity | lia]. }
  split; [exact He|].
  rewrite anonymize_value_str. unfold sha256_hexdigest. by rewrite He.
Qed.

Lemma anonymize_value_ascii_witness :
  str_encode (py "HIT002") = Some (List.map byte_of_Z (py "HIT002")) /\
  anonymize_value (PStr (py "HIT002"))
  = Ok (PStr (hexlify (SHA256 (List.map byte_of_Z (py "HIT002"))))).
Proof.
  apply (anonymize_value_ascii (py "HIT002")).
  repeat constructor; lia.
Defined.

(** X14. The two columns are hashed by the same function, with nothing
    that tells them apart: a value that occurs in the workerid column and
    in the hitId column of the input gets the same token in both columns
    of the output. *)
Theorem same_token_in_both_columns (w w' : world) (t : table)
    (ws hs : Series) (i j : nat) (v : pyval) :
  files w !! input_path = Some t -> run w = (Ok tt, w') ->
  column t (py "workerid") = Some ws -> ws !! i = Some v ->
  column t (py "hitId") = Some hs -> hs !! j = Some v ->
  exists t' ws' hs' d,
    files w' !! output_path = Some t' /\
    column t' (py "workerid") = Some ws' /\ ws' !! i = Some d /\
    column t' (py "hitId") = Some hs' /\ hs' !! j = Some d /\
    anonymize_value v = Ok d.
Proof.
  intros Hin Hrun Hw Hi Hh Hj.
  destruct (run_ok _ _ _ Hin Hrun) as (t' & -> & _ & Hids).
  destruct (Hids (py "workerid") eq_refl) as (ws0 & ws' & Hw0 & Hw' & Hhw).
  destruct (Hids (py "hitId") eq_refl) as (hs0 & hs' & Hh0 & Hh' & Hhh).
  rewrite Hw in Hw0. injection Hw0 as <-.
  rewrite Hh in Hh0. injection Hh0 as <-.
  destruct (Forall2_lookup_l _ _ _ _ _ Hhw Hi) as (dw & Hdw & Hvw).
  destruct (Forall2_lookup_l _ _ _ _ _ Hhh Hj) as (dh & Hdh & Hvh).
  assert (dh = dw) as -> by congruence.
  exists t', ws', hs', dw. cbn [files]. by rewrite lookup_insert_eq.
Qed.

Lemma same_token_in_both_columns_witness :
  exists t' ws' hs' d,
    files (snd (run (World {[ input_path :=
                      [(py "workerid", [PStr (py "bob"); PStr (py "alice")]);
                       (py "hitId", [PStr (py "alice"); PStr (py "bob")])] ]} [])))
      !! output_path = Some t' /\
    column t' (py "workerid") = Some ws' /\ ws' !! 1%nat = Some d /\
    column t' (py "hitId") = Some hs' /\ hs' !! 0%nat = Some d /\
    anonymize_value (PStr (py "alice")) = Ok d.
Proof.
  apply (same_token_in_both_columns
           (World {[ input_path :=
                       [(py "workerid", [PStr (py "bob"); PStr (py "alice")]);
                        (py "hitId", [PStr (py "alice"); PStr (py "bob")])] ]} [])
           _
           [(py "workerid", [PStr (py "bob"); PStr (py "alice")]);
            (py "hitId", [PStr (py "alice"); PStr (py "bob")])]
           [PStr (py "bob"); PStr (py "alice")]
           [PStr (py "alice"); PStr (py "bob")]
           1%nat 0%nat (PStr (py "alice")));
    vm_compute; reflexivity.
Defined.



(** ** The text read and the text written *)

Section Text.

Implicit Types (f : str) (fs : list str) (vs : Series) (c : csv) (t : table).









End Text.




